(** * dapptoon: the tray launcher (main.go)

    A shallow embedding of the Go program that serves the built web bundle on
    port 8000 and drives a tray menu (Open App, Copy LAN URL, Show QR Code,
    Quit), with the properties its specification states about it.

    The program is a thin layer over the Go standard library (net, net/http,
    io/fs, embed, path, os/exec, log) and the systray package.  The library
    functions it calls are modelled in the modules [net], [strings], [utf8],
    [path], [fs], [url] and [http] below, after the library's sources and
    documentation; the program's own functions ([getLANIP], [openBrowser],
    [startServer], [onReady], [main]) keep their names.  What the machine
    answers (interfaces, files, outcomes of external commands, the bind of
    the port), what the scheduler decides between the server goroutine and
    the rest of the program, and the release of net/http the program is built
    with make up the record [Env]; what the process does is a list of
    [Event]s. *)

From Stdlib Require Import ZArith NArith Strings.Byte Strings.String Strings.Ascii List.
From stdpp Require Import base strings gmap list pretty.

Open Scope string_scope.

(** A Go call that returns [(value, error)]. *)
Inductive result (E A : Type) : Type :=
  | Ok (a : A)
  | Err (e : E).
Arguments Ok {E A} a.
Arguments Err {E A} e.

(** [x != nil], for a value that may be nil. *)
Definition not_nil {A : Type} (x : option A) : bool :=
  match x with Some _ => true | None => false end.

(** ** Package net: IP addresses and interface addresses *)

Module net.

(** [type IP []byte]; a nil slice is [None] where the distinction matters. *)
Definition IP : Type := list byte.

Definition IPv4len : nat := 4.
Definition IPv6len : nat := 16.

Definition isZeros (p : list byte) : bool :=
  forallb (fun b => Byte.eqb b x00) p.

Definition byte_at (p : list byte) (i : nat) : byte := nth i p x00.

(** [func (ip IP) To4() IP]: the 4-byte form of an IPv4 address, or nil. *)
Definition To4 (ip : IP) : option IP :=
  if Nat.eqb (length ip) IPv4len then Some ip
  else if Nat.eqb (length ip) IPv6len
          && isZeros (take 10 ip)
          && Byte.eqb (byte_at ip 10) xff
          && Byte.eqb (byte_at ip 11) xff
       then Some (take 4 (drop 12 ip))
       else None.

Definition bytes_eqb (p q : list byte) : bool :=
  Nat.eqb (length p) (length q)
  && forallb (fun pq => Byte.eqb (fst pq) (snd pq)) (combine p q).

Definition v4InV6Prefix : list byte :=
  [x00; x00; x00; x00; x00; x00; x00; x00; x00; x00; xff; xff].

(** [func IPv4(a, b, c, d byte) IP]: the 16-byte form of an IPv4 address. *)
Definition IPv4 (a b c d : byte) : IP := (v4InV6Prefix ++ [a; b; c; d])%list.

Definition IPv6loopback : IP :=
  [x00; x00; x00; x00; x00; x00; x00; x00;
   x00; x00; x00; x00; x00; x00; x00; x01].

(** [func (ip IP) Equal(x IP) bool]. *)
Definition Equal (ip x : IP) : bool :=
  if Nat.eqb (length ip) (length x) then bytes_eqb ip x
  else if Nat.eqb (length ip) IPv4len && Nat.eqb (length x) IPv6len
       then bytes_eqb (take 12 x) v4InV6Prefix && bytes_eqb ip (drop 12 x)
  else if Nat.eqb (length ip) IPv6len && Nat.eqb (length x) IPv4len
       then bytes_eqb (take 12 ip) v4InV6Prefix && bytes_eqb (drop 12 ip) x
  else false.

(** [func (ip IP) IsLoopback() bool]: 127.0.0.0/8 or ::1. *)
Definition IsLoopback (ip : IP) : bool :=
  match To4 ip with
  | Some ip4 => Byte.eqb (byte_at ip4 0) x7f
  | None => Equal ip IPv6loopback
  end.

(** Decimal text of one byte (ubtoa). *)
Definition ubtoa (b : byte) : string := pretty (Byte.to_N b).

(** [func (ip IP) String() string], on the addresses [To4] accepts: dotted
    decimal.  The remaining branches of the Go function (the nil slice, a
    slice of odd length, IPv6 text) are not reached by this program, which
    calls [String] on the non-nil result of [To4] only; they are rendered
    as ["?"] here. *)
Definition String (ip : IP) : string :=
  match To4 ip with
  | Some [a; b; c; d] =>
      ubtoa a +:+ "." +:+ ubtoa b +:+ "." +:+ ubtoa c +:+ "." +:+ ubtoa d
  | _ => "?"
  end.

(** [type Addr interface]: the dynamic types [InterfaceAddrs] hands out. *)
Inductive Addr : Type :=
  | IPNet (ip : IP) (mask : list byte)
  | IPAddr (ip : IP) (zone : string).

End net.

(** ** NetworkLocator: getLANIP *)

(** The body of [for _, addr := range addrs]: the first [*net.IPNet] that is
    not loopback and has a 4-byte form ends the loop with its text. *)
Fixpoint getLANIP_range (addrs : list net.Addr) : string :=
  match addrs with
  | [] => ""
  | addr :: rest =>
      match addr with
      | net.IPNet ip _ =>
          if negb (net.IsLoopback ip) then
            match net.To4 ip with
            | Some ip4 => net.String ip4
            | None => getLANIP_range rest
            end
          else getLANIP_range rest
      | _ => getLANIP_range rest
      end
  end.

(** [func getLANIP() string]; the argument is what [net.InterfaceAddrs()]
    returned. *)
Definition getLANIP (InterfaceAddrs : result string (list net.Addr)) : string :=
  match InterfaceAddrs with
  | Err _ => ""
  | Ok addrs => getLANIP_range addrs
  end.

(** The interface addresses the locator is after: an interface address (an
    [*net.IPNet] entry) that is not loopback and is an IPv4 address. *)
Definition nonloopback_ipv4 (a : net.Addr) : bool :=
  match a with
  | net.IPNet ip _ => negb (net.IsLoopback ip) && not_nil (net.To4 ip)
  | _ => false
  end.

(** The host text of an interface address. *)
Definition addr_host (a : net.Addr) : string :=
  match a with
  | net.IPNet ip _ | net.IPAddr ip _ => net.String ip
  end.

(** ** Package strings: the helpers the library code below uses *)

Module strings.

Fixpoint HasPrefix (s prefix : string) {struct prefix} : bool :=
  match prefix with
  | "" => true
  | String a prefix' =>
      match s with
      | "" => false
      | String b s' => Ascii.eqb a b && HasPrefix s' prefix'
      end
  end.

(** [s] is [suffix], or what follows its first byte ends in [suffix]. *)
Fixpoint HasSuffix (s suffix : string) : bool :=
  String.eqb s suffix
  || match s with
     | "" => false
     | String _ s' => HasSuffix s' suffix
     end.

Definition TrimPrefix (s prefix : string) : string :=
  if HasPrefix s prefix
  then String.substring (String.length prefix)
                        (String.length s - String.length prefix) s
  else s.

Definition TrimSuffix (s suffix : string) : string :=
  if HasSuffix s suffix
  then String.substring 0 (String.length s - String.length suffix) s
  else s.

(** One more byte in front of the first element. *)
Definition push_byte (a : ascii) (elems : list string) : list string :=
  match elems with
  | w :: ws => String a w :: ws
  | [] => [String a ""]
  end.

(** [strings.Split(s, "/")]. *)
Fixpoint SplitSlash (s : string) : list string :=
  match s with
  | "" => [""]
  | String a s' =>
      if Ascii.eqb a "/" then "" :: SplitSlash s'
      else push_byte a (SplitSlash s')
  end.

(** [strings.Join(elems, "/")]. *)
Definition JoinSlash (elems : list string) : string := String.concat "/" elems.

End strings.

(** ** Package unicode/utf8 *)

Module utf8.

Definition between (lo hi : N) (a : ascii) : bool :=
  (lo <=? N_of_ascii a)%N && (N_of_ascii a <=? hi)%N.

Definition cont (a : ascii) : bool := between 128 191 a.

(** [utf8.ValidString]: well-formed UTF-8 (no overlong forms, no surrogates,
    nothing above U+10FFFF). *)
Fixpoint ValidString (s : string) : bool :=
  match s with
  | "" => true
  | String a s1 =>
      if between 0 127 a then ValidString s1
      else
        match s1 with
        | "" => false
        | String b s2 =>
            if between 194 223 a then cont b && ValidString s2
            else
              match s2 with
              | "" => false
              | String c s3 =>
                  if between 224 224 a then between 160 191 b && cont c && ValidString s3
                  else if between 225 236 a then cont b && cont c && ValidString s3
                  else if between 237 237 a then between 128 159 b && cont c && ValidString s3
                  else if between 238 239 a then cont b && cont c && ValidString s3
                  else
                    match s3 with
                    | "" => false
                    | String d s4 =>
                        if between 240 240 a
                        then between 144 191 b && cont c && cont d && ValidString s4
                        else if between 241 243 a
                        then cont b && cont c && cont d && ValidString s4
                        else if between 244 244 a
                        then between 128 143 b && cont c && cont d && ValidString s4
                        else false
                    end
              end
        end
  end.

End utf8.

(** ** Package path: slash-separated paths *)

Module path.

(** A path element that [Clean] copies to its output: neither empty, nor
    ["."], nor [".."]. *)
Definition real_elem (e : string) : bool :=
  negb (String.eqb e "") && negb (String.eqb e ".") && negb (String.eqb e "..").

(** The loop of [path.Clean], element by element. [out] is the output so
    far, last element first.  An empty element and ["."] are dropped; [".."]
    removes the element before it, is dropped at the root of a rooted path,
    and is kept at the front of a relative one. *)
Fixpoint clean_elems (rooted : bool) (out : list string) (elems : list string)
  : list string :=
  match elems with
  | [] => out
  | e :: rest =>
      if String.eqb e "" || String.eqb e "." then clean_elems rooted out rest
      else if String.eqb e ".." then
        match out with
        | top :: out' =>
            if negb rooted && String.eqb top ".."
            then clean_elems rooted (".." :: out) rest
            else clean_elems rooted out' rest
        | [] =>
            if rooted then clean_elems rooted [] rest
            else clean_elems rooted [".."] rest
        end
      else clean_elems rooted (e :: out) rest
  end.

(** [func Clean(path string) string]. *)
Definition Clean (p : string) : string :=
  if String.eqb p "" then "."
  else
    let rooted := strings.HasPrefix p "/" in
    let out := rev (clean_elems rooted [] (strings.SplitSlash p)) in
    if rooted then "/" +:+ strings.JoinSlash out
    else match out with
         | [] => "."
         | _ => strings.JoinSlash out
         end.

(** [func Join(elem ...string) string] for two elements. *)
Definition Join (a b : string) : string :=
  if String.eqb a "" && String.eqb b "" then ""
  else if String.eqb a "" then Clean b
  else if String.eqb b "" then Clean a
  else Clean (a +:+ "/" +:+ b).

(** [func Base(path string) string]: the last element. *)
Definition Base (p : string) : string :=
  if String.eqb p "" then "."
  else match List.filter (fun e => negb (String.eqb e "")) (rev (strings.SplitSlash p)) with
       | e :: _ => e
       | [] => "/"
       end.

End path.

(** ** Package io/fs and embed: the embedded file tree *)

Module fs.

Inductive error : Type := ErrNotExist | ErrInvalid | ErrPermission.

(** What [Open] hands back, as far as the file server looks at it: a regular
    file with its bytes, or a directory with its entry names. *)
Inductive Node : Type :=
  | File (data : list byte)
  | Dir (entries : list string).

(** [func ValidPath(name string) bool]. *)
Definition ValidPath (name : string) : bool :=
  utf8.ValidString name
  && (String.eqb name "." || forallb path.real_elem (strings.SplitSlash name)).

(** [type FS interface { Open(name string) (File, error) }]. *)
Definition FS : Type := string -> result error Node.

(** [embed.FS]: the files and directories the compiler embedded, by name.
    [Open] of a name that is not there, valid or not, is [ErrNotExist]. *)
Definition embed_Open (files : gmap string Node) : FS :=
  fun name =>
    if ValidPath name then
      match files !! name with
      | Some n => Ok n
      | None => Err ErrNotExist
      end
    else Err ErrNotExist.

(** [func Sub(fsys FS, dir string) (FS, error)], and [subFS.Open]: an
    invalid name is [ErrInvalid], any other is looked up under [dir]. *)
Definition Sub (fsys : FS) (dir : string) : result error FS :=
  if negb (ValidPath dir) then Err ErrInvalid
  else if String.eqb dir "." then Ok fsys
  else Ok (fun name =>
             if negb (ValidPath name) then Err ErrInvalid
             else fsys (path.Join dir name)).

End fs.

(** ** Package net/url: the encoded form of a path *)

Module url.

Definition upperhex : list ascii := list_ascii_of_string "0123456789ABCDEF".

(** [shouldEscape(c, encodePath)]: letters, digits and [-_.~] are kept; of
    the reserved characters [$&+,/:;=?@] only [?] is escaped in a path;
    every other byte is escaped. *)
Definition shouldEscape (c : ascii) : bool :=
  let n := N_of_ascii c in
  if ((97 <=? n) && (n <=? 122) || (65 <=? n) && (n <=? 90)
      || (48 <=? n) && (n <=? 57))%N then false
  else if existsb (Ascii.eqb c) (list_ascii_of_string "-_.~") then false
  else if existsb (Ascii.eqb c) (list_ascii_of_string "$&+,/:;=?@")
       then Ascii.eqb c "?"
  else true.

(** One byte of [escape]: itself, or [%] and its two hexadecimal digits. *)
Definition escape_byte (c : ascii) : string :=
  if shouldEscape c then
    String "%"
      (String (nth (nat_of_ascii c / 16) upperhex "0"%char)
         (String (nth (nat_of_ascii c mod 16) upperhex "0"%char) ""))
  else String c "".

(** [escape(s, encodePath)]. *)
Fixpoint escape (s : string) : string :=
  match s with
  | "" => ""
  | String c s' => escape_byte c +:+ escape s'
  end.

(** [func (u *URL) EscapedPath() string] of a URL with the path [Path] and no
    [RawPath]: the default encoding of the path. *)
Definition EscapedPath (Path : string) : string :=
  if String.eqb Path "*" then "*" else escape Path.

End url.

(** ** Package net/http: the file server and the request multiplexer

    After fs.go and server.go of the standard library.  A request is a plain
    GET (no Range or conditional headers, no query), given by its URL path,
    decoded ([r.URL.Path]) and encoded ([r.URL.EscapedPath()]); a response is
    what the handler writes. *)

Module http.

Inductive Response : Type :=
  | Content (data : list byte)            (* 200, serveContent: the file's bytes *)
  | DirList (entries : list string)       (* 200, dirList: an HTML listing *)
  | MovedPermanently (location : string)  (* 301, with a Location header *)
  | TemporaryRedirect (location : string) (* 307, with a Location header *)
  | Error (code : Z).                     (* http.Error *)

Definition StatusNotFound : Z := 404.
Definition StatusForbidden : Z := 403.
Definition StatusInternalServerError : Z := 500.
Definition StatusBadRequest : Z := 400.

Definition StatusCode (r : Response) : Z :=
  match r with
  | Content _ | DirList _ => 200
  | MovedPermanently _ => 301
  | TemporaryRedirect _ => 307
  | Error code => code
  end.

(** [type FileSystem interface { Open(name string) (File, error) }]. *)
Definition FileSystem : Type := string -> result fs.error fs.Node.

(** [mapOpenError]: an error other than not-exist and permission becomes
    not-exist when a leading part of the name is a regular file. *)
Fixpoint mapOpenError_parts (stat : fs.FS) (originalErr : fs.error)
    (before parts : list string) : fs.error :=
  match parts with
  | [] => originalErr
  | p :: rest =>
      if String.eqb p "" then mapOpenError_parts stat originalErr (before ++ [p])%list rest
      else match stat (strings.JoinSlash (before ++ [p])%list) with
           | Err _ => originalErr
           | Ok (fs.Dir _) => mapOpenError_parts stat originalErr (before ++ [p])%list rest
           | Ok (fs.File _) => fs.ErrNotExist
           end
  end.

Definition mapOpenError (originalErr : fs.error) (name : string) (stat : fs.FS)
  : fs.error :=
  match originalErr with
  | fs.ErrNotExist | fs.ErrPermission => originalErr
  | _ => mapOpenError_parts stat originalErr [] (strings.SplitSlash name)
  end.

(** [func FS(fsys fs.FS) FileSystem], and [ioFS.Open]. *)
Definition FS (fsys : fs.FS) : FileSystem :=
  fun name =>
    let name := if String.eqb name "/" then "." else strings.TrimPrefix name "/" in
    match fsys name with
    | Ok file => Ok file
    | Err err => Err (mapOpenError err name fsys)
    end.

(** [type Dir string], and [Dir.Open], on a Unix system: the name is cleaned
    as a rooted path and looked up below [dir]; [os_Open] is [os.Open]. *)
Definition Dir (os_Open : fs.FS) (dir : string) : FileSystem :=
  fun name =>
    let rel := strings.TrimPrefix (path.Clean ("/" +:+ name)) "/" in
    let dir := if String.eqb dir "" then "." else dir in
    let fullName := path.Join dir rel in
    match os_Open fullName with
    | Ok file => Ok file
    | Err err => Err (mapOpenError err fullName os_Open)
    end.

(** [toHTTPError]. *)
Definition toHTTPError (err : fs.error) : Response :=
  match err with
  | fs.ErrNotExist => Error StatusNotFound
  | fs.ErrPermission => Error StatusForbidden
  | _ => Error StatusInternalServerError
  end.

Definition indexPage : string := "/index.html".

(** [url[len(url)-1] == '/']. *)
Definition ends_in_slash (url : string) : bool := strings.HasSuffix url "/".

(** [func serveFile(w, r, fs, name, redirect)], with [URLPath] for
    [r.URL.Path].  As the documentation of [FileServer] has it: "As a special
    case, the returned file server redirects any request ending in
    /index.html to the same path, without the final index.html."  A directory
    is served by its [index.html] when it has one and by a listing of its
    entries otherwise; a directory asked for without the final slash, and a
    file asked for with one, are redirected. *)
Definition serveFile (root : FileSystem) (URLPath name : string) (redirect : bool)
  : Response :=
  (* redirect .../index.html to .../ *)
  if strings.HasSuffix URLPath indexPage then MovedPermanently "./"
  else
    match root name with
    | Err err => toHTTPError err
    | Ok d =>
        let canonical :=
          if redirect then
            match d with
            | fs.Dir _ =>
                if negb (ends_in_slash URLPath)
                then Some (path.Base URLPath +:+ "/") else None
            | fs.File _ =>
                if ends_in_slash URLPath
                then Some ("../" +:+ path.Base URLPath) else None
            end
          else None in
        match canonical with
        | Some location => MovedPermanently location
        | None =>
            match d with
            | fs.Dir entries =>
                if String.eqb URLPath "" || negb (ends_in_slash URLPath)
                then MovedPermanently (path.Base URLPath +:+ "/")
                else
                  (* use contents of index.html for directory, if present *)
                  match root (strings.TrimSuffix name "/" +:+ indexPage) with
                  | Ok (fs.File data) => Content data
                  | Ok (fs.Dir entries') => DirList entries'
                  | Err _ => DirList entries
                  end
            | fs.File data => Content data
            end
        end
    end.

(** [type Handler]: the response to a GET of a URL path. *)
Definition Handler : Type := string -> Response.

(** [func FileServer(root FileSystem) Handler], and [fileHandler.ServeHTTP]. *)
Definition FileServer (root : FileSystem) : Handler :=
  fun URLPath =>
    let upath :=
      if negb (strings.HasPrefix URLPath "/") then "/" +:+ URLPath else URLPath in
    serveFile root upath (path.Clean upath) true.

(** [cleanPath]: the canonical form of a request path; a trailing slash is
    kept. *)
Definition cleanPath (p : string) : string :=
  if String.eqb p "" then "/"
  else
    let p := if negb (strings.HasPrefix p "/") then "/" +:+ p else p in
    let np := path.Clean p in
    if ends_in_slash p && negb (String.eqb np "/") then np +:+ "/" else np.

(** [type ServeMux]: the registered patterns with their handlers. *)
Definition ServeMux : Type := list (string * Handler).

Definition registered (mux : ServeMux) (pattern : string) : option Handler :=
  snd <$> find (fun e => String.eqb (fst e) pattern) mux.

(** The longest registered pattern ending in a slash that the path begins
    with. *)
Fixpoint longest_prefix (mux : ServeMux) (p : string) : option (string * Handler) :=
  match mux with
  | [] => None
  | e :: rest =>
      let best := longest_prefix rest p in
      if ends_in_slash (fst e) && strings.HasPrefix p (fst e) then
        match best with
        | Some b =>
            if Nat.ltb (String.length (fst b)) (String.length (fst e))
            then Some e else best
        | None => Some e
        end
      else best
  end.

(** [ServeMux.match]: an exact pattern first, then the longest prefix. *)
Definition mux_match (mux : ServeMux) (p : string) : option Handler :=
  match registered mux p with
  | Some h => Some h
  | None => snd <$> longest_prefix mux p
  end.

(** [ServeMux.shouldRedirect]: the path is not registered, the path with a
    slash added is, and the path does not end in a slash. *)
Definition shouldRedirect (mux : ServeMux) (p : string) : bool :=
  match registered mux p, registered mux (p +:+ "/") with
  | None, Some _ => negb (String.eqb p "") && negb (ends_in_slash p)
  | _, _ => false
  end.

(** [type Request]: the path of the request, as [r.URL.Path] has it and as
    [r.URL.EscapedPath()] has it. *)
Record Request : Type := mkRequest { Path : string; EscapedPath : string }.

(** The request for a path that the client sends in its default encoding. *)
Definition plain (URLPath : string) : Request :=
  {| Path := URLPath; EscapedPath := url.EscapedPath URLPath |}.

(** What the releases of net/http differ in.  Up to Go 1.21, and later under
    [GODEBUG=httpmuxgo121=1], the mux cleans [r.URL.Path]; from Go 1.22 on it
    cleans the encoded path.  Its redirects carry status 301, in later
    releases 307. *)
Record MuxVersion : Type := mkMuxVersion {
  httpmuxgo121 : bool;
  redirect307 : bool;
}.

(** The form of the path the mux cleans. *)
Definition mux_path (v : MuxVersion) (r : Request) : string :=
  if httpmuxgo121 v then Path r else EscapedPath r.

(** [RedirectHandler(u.String(), code)] for [u := &url.URL{Path: p}]. *)
Definition mux_redirect (v : MuxVersion) (p : string) : Response :=
  if redirect307 v then TemporaryRedirect (url.EscapedPath p)
  else MovedPermanently (url.EscapedPath p).

(** [ServeMux.ServeHTTP] for a GET, over plain path patterns as the program
    registers them (no method, host or wildcard).  The request for [*] is a
    bad request; a path that is not in canonical form is redirected to its
    canonical form; the others go to the handler whose pattern matches the
    path the mux has looked at, or to [NotFound].  The handler gets the
    request as it came, with [r.URL.Path] as the path: the mux cleans nothing
    for it. *)
Definition ServeMux_ServeHTTP (v : MuxVersion) (mux : ServeMux) (r : Request)
  : Response :=
  if String.eqb (Path r) "*" then Error StatusBadRequest
  else
    let given := mux_path v r in
    let p := cleanPath given in
    if shouldRedirect mux p then
      mux_redirect v ((if httpmuxgo121 v then p else cleanPath (Path r)) +:+ "/")
    else if negb (String.eqb p given) then mux_redirect v p
    else match mux_match mux given with
         | Some h => h (Path r)
         | None => Error StatusNotFound
         end.

End http.

(** ** The process: global variables, observable events, environment *)

(** The four tray menu entries, by the channel whose receive selects the case:
    [mOpen.ClickedCh], [mCopy.ClickedCh], [mQR.ClickedCh], [mQuit.ClickedCh]. *)
Inductive MenuAction : Type := OpenApp | CopyURL | ShowQR | Quit.

(** [exec.Cmd]: the argument vector ([Args[0]] is the program) and what is
    connected to standard input ([None]: nothing). *)
Record Cmd : Type := mkCmd { Args : list string; Stdin : option string }.

(** [exec.Command(name, arg...)]. *)
Definition Command (name : string) (arg : list string) : Cmd :=
  {| Args := name :: arg; Stdin := None |}.

Definition with_Stdin (c : Cmd) (s : string) : Cmd :=
  {| Args := Args c; Stdin := Some s |}.

Inductive TrayCall : Type :=
  | SetIcon (icon : list byte)
  | SetTitle (title : string)
  | SetTooltip (tooltip : string)
  | AddMenuItem (title tooltip : string)
  | TrayQuit.

(** The two [go func() { ... }()] statements of the program. *)
Inductive Goroutine : Type := go_serve | go_menu.

(** What the process does to the world around it, and the points of its own
    run the properties speak of (the write of the global, the launch of a
    goroutine, the receive that selects a menu case). *)
Inductive Event : Type :=
  | Assign_lanURL (v : string)     (* lanURL = ... *)
  | Println (line : string)        (* fmt.Println *)
  | Log (line : string)            (* the log package's output *)
  | Exit (code : Z)                (* os.Exit *)
  | Go (g : Goroutine)             (* go func() { ... }() *)
  | Listen (addr : string)         (* http.ListenAndServe binds addr *)
  | Tray (c : TrayCall)            (* a call into systray *)
  | Recv (a : MenuAction)          (* case <-m.ClickedCh: *)
  | ExecStart (c : Cmd)            (* cmd.Start(): launched, not awaited *)
  | ExecRun (c : Cmd)              (* cmd.Run(): launched and awaited *)
  | QRWriteFile (content : string) (size : Z) (file : string).

(** The package-level variables: [var lanURL string], and net/http's
    [DefaultServeMux]. *)
Record Globals : Type := mkGlobals {
  lanURL : string;
  DefaultServeMux : http.ServeMux;
}.

(** Before [main] runs: the zero values. *)
Definition zero_Globals : Globals := {| lanURL := ""; DefaultServeMux := [] |}.

(** What the machine answers to the process.  An error is [Some] text, [None]
    is Go's nil error.  [schedule] is what the scheduler decides each time the
    server goroutine and the rest of the program can both take a step: [true]
    for the server goroutine.  [muxVersion] is the one thing the answers
    depend on that [main.go] does not fix: the release of net/http the program
    is built with. *)
Record Env : Type := mkEnv {
  GOOS : string;                                     (* runtime.GOOS *)
  InterfaceAddrs : result string (list net.Addr);    (* net.InterfaceAddrs() *)
  distFiles : gmap string fs.Node;                   (* //go:embed dist/* *)
  disk : fs.FS;                                      (* os.Open, from the working directory *)
  iconData : list byte;                              (* //go:embed tray_icon.png *)
  Start_err : Cmd -> option string;                  (* cmd.Start() *)
  Run_err : Cmd -> option string;                    (* cmd.Run() *)
  WriteFile_err : string -> string -> option string; (* qrcode.WriteFile *)
  ListenAndServe_err : string -> option string;      (* None: bound, serving *)
  schedule : list bool;                              (* the scheduler, see [interleave] *)
  muxVersion : http.MuxVersion;                      (* the net/http of the build *)
}.

(** How a piece of the program ends: it returns a value, the process has
    exited, or it waits for something that does not come. *)
Inductive Outcome (A : Type) : Type :=
  | Return (a : A)
  | Exited (code : Z)
  | Blocked.
Arguments Return {A} a.
Arguments Exited {A} code.
Arguments Blocked {A}.

(** A piece of the program: from the globals to its outcome, the globals after
    it and the events it caused, in order. *)
Definition M (A : Type) : Type := Globals -> Outcome A * Globals * list Event.

Definition ret {A} (a : A) : M A := fun g => (Return a, g, []).

Definition bind {A B} (m : M A) (k : A -> M B) : M B :=
  fun g =>
    match m g with
    | (Return a, g1, t1) =>
        match k a g1 with
        | (o, g2, t2) => (o, g2, (t1 ++ t2)%list)
        end
    | (Exited code, g1, t1) => (Exited code, g1, t1)
    | (Blocked, g1, t1) => (Blocked, g1, t1)
    end.

Declare Scope prog_scope.
Delimit Scope prog_scope with prog.
Bind Scope prog_scope with M.
Notation "x <- m ;; k" := (bind m (fun x => k))
  (at level 100, m at next level, k at level 200, right associativity) : prog_scope.
Notation "m ;; k" := (bind m (fun _ => k))
  (at level 100, k at level 200, right associativity) : prog_scope.
Open Scope prog_scope.

Definition emit (e : Event) : M unit := fun g => (Return tt, g, [e]).
Definition get_lanURL : M string := fun g => (Return (lanURL g), g, []).
Definition set_lanURL (v : string) : M unit :=
  fun g => (Return tt,
            {| lanURL := v; DefaultServeMux := DefaultServeMux g |},
            [Assign_lanURL v]).
Definition block {A} : M A := fun g => (Blocked, g, []).

(** [os.Exit(code)]. *)
Definition os_Exit {A} (code : Z) : M A := fun g => (Exited code, g, [Exit code]).

(** [log.Println(v...)] and [log.Fatal(v...)]: the latter is a print followed
    by [os.Exit(1)]. *)
Definition log_Println (line : string) : M unit := emit (Log line).
Definition log_Fatal {A} (line : string) : M A := emit (Log line) ;; os_Exit 1.

(** [http.Handle(pattern, handler)] registers with [DefaultServeMux]. *)
Definition http_Handle (pattern : string) (h : http.Handler) : M unit :=
  fun g => (Return tt,
            {| lanURL := lanURL g;
               DefaultServeMux := (DefaultServeMux g ++ [(pattern, h)])%list |},
            []).

Definition outcome_of {A} (r : Outcome A * Globals * list Event) : Outcome A := r.1.1.
Definition globals_of {A} (r : Outcome A * Globals * list Event) : Globals := r.1.2.
Definition trace_of {A} (r : Outcome A * Globals * list Event) : list Event := r.2.

(** ** Goroutines

    The program has two [go] statements.  The goroutine of [onReady] (the
    menu loop) is the only thing that goes on once [onReady] has returned:
    [systray.Run] then only waits for [systray.Quit], so the menu loop is run
    where it is launched.  The goroutine of [startServer] runs beside all that
    follows its launch: the rest of [main], the tray, the menu loop and the
    exit of the process when [main] returns. *)

(** The events [s] of the server goroutine among the events [a] of the rest
    of the program, both in their own order.  The scheduler says who takes
    the next step ([true]: the server goroutine) as long as both have one to
    take; when it has nothing more to say, the server goroutine goes first. *)
Fixpoint interleave (sched : list bool) (a s : list Event) : list Event :=
  match sched with
  | [] => (s ++ a)%list
  | server_next :: sched' =>
      match s with
      | [] => a
      | y :: s' =>
          if server_next then y :: interleave sched' a s'
          else match a with
               | [] => s
               | x :: a' => x :: interleave sched' a' s
               end
      end
  end.

(** [os.Exit] ends the process: nothing happens after the first exit. *)
Fixpoint until_Exit (t : list Event) : list Event :=
  match t with
  | [] => []
  | Exit code :: _ => [Exit code]
  | e :: rest => e :: until_Exit rest
  end.

(** The status of the first exit. *)
Fixpoint exit_status (t : list Event) : option Z :=
  match t with
  | [] => None
  | Exit code :: _ => Some code
  | _ :: rest => exit_status rest
  end.

(** The events [t] of the main goroutine with those of the server goroutine,
    [body], which can take its steps from [go func() { ... }()] on. *)
Fixpoint launch (sched : list bool) (body t : list Event) : list Event :=
  match t with
  | [] => []
  | Go go_serve :: rest => Go go_serve :: interleave sched rest body
  | e :: rest => e :: launch sched body rest
  end.

(** ** The program (main.go) *)

Section Program.

Variable env : Env.

Definition exec_Start (c : Cmd) : M (option string) :=
  emit (ExecStart c) ;; ret (Start_err env c).

Definition exec_Run (c : Cmd) : M (option string) :=
  emit (ExecRun c) ;; ret (Run_err env c).

(** [qrcode.WriteFile(content, qrcode.Medium, size, filename)]. *)
Definition qrcode_WriteFile (content : string) (size : Z) (file : string)
  : M (option string) :=
  emit (QRWriteFile content size file) ;; ret (WriteFile_err env content file).

(** [func openBrowser(url string)]. *)
Definition openBrowser (url : string) : M unit :=
  err <- (if String.eqb (GOOS env) "linux" then
            exec_Start (Command "xdg-open" [url])
          else if String.eqb (GOOS env) "windows" then
            exec_Start (Command "rundll32" ["url.dll,FileProtocolHandler"; url])
          else if String.eqb (GOOS env) "darwin" then
            exec_Start (Command "open" [url])
          else ret None) ;;
  match err with
  | Some e => log_Println ("Failed to open browser: " +:+ e)
  | None => ret tt
  end.

(** The file system [startServer] serves: [fs.Sub(distFiles, "dist")]. *)
Definition distFS : result fs.error fs.FS :=
  fs.Sub (fs.embed_Open (distFiles env)) "dist".

(** The goroutine of [startServer]:
    [log.Fatal(http.ListenAndServe(":8000", nil))].  With the port bound the
    call does not return and the goroutine serves for the rest of the run. *)
Definition serve : M unit :=
  emit (Listen ":8000") ;;
  match ListenAndServe_err env ":8000" with
  | Some e => log_Fatal e
  | None => ret tt
  end.

(** [func startServer()]. *)
Definition startServer : M unit :=
  match distFS with
  | Err _ => log_Fatal "Failed to get dist subdirectory:sub dist: invalid argument"
  | Ok sub =>
      let fs := http.FileServer (http.FS sub) in
      http_Handle "/" fs ;;
      emit (Go go_serve)
  end.

(** One turn of [for { select { ... } }] in [onReady]'s goroutine, for the
    channel that delivered: [true] to go round again, [false] for the
    [return] after [systray.Quit()]. *)
Definition select_case (a : MenuAction) : M bool :=
  emit (Recv a) ;;
  match a with
  | OpenApp =>
      openBrowser "http://localhost:8000" ;;
      ret true
  | CopyURL =>
      url <- get_lanURL ;;
      (if String.eqb (GOOS env) "windows" then
         exec_Run (Command "cmd" ["/c"; "echo " +:+ url +:+ "| clip"])
       else if String.eqb (GOOS env) "darwin" then
         exec_Run (with_Stdin (Command "pbcopy" []) url)
       else
         exec_Run (with_Stdin (Command "xclip" ["-selection"; "clipboard"]) url)) ;;
      ret true
  | ShowQR =>
      let file := "lan_qr.png" in
      url <- get_lanURL ;;
      qrcode_WriteFile url 256 file ;;
      openBrowser file ;;
      ret true
  | Quit =>
      emit (Tray TrayQuit) ;;
      ret false
  end.

(** The goroutine of [onReady]: the menu clicks are taken one at a time, in
    the order they are delivered; with none left the [select] waits. *)
Fixpoint menu_loop (clicks : list MenuAction) : M unit :=
  match clicks with
  | [] => block
  | a :: rest =>
      again <- select_case a ;;
      if again then menu_loop rest else ret tt
  end.

(** [func onReady()]. *)
Definition onReady : M unit :=
  emit (Tray (SetIcon (iconData env))) ;;
  emit (Tray (SetTitle "React Server")) ;;
  emit (Tray (SetTooltip "Serving your React app")) ;;
  emit (Tray (AddMenuItem "Open App" "Open in browser")) ;;
  emit (Tray (AddMenuItem "Copy LAN URL" "Copy link to clipboard")) ;;
  emit (Tray (AddMenuItem "Show QR Code" "Open QR code for phone")) ;;
  emit (Tray (AddMenuItem "Quit" "Stop the server")) ;;
  emit (Go go_menu).

(** [fmt.Sprintf("http://%s:%d", lanIP, port)]. *)
Definition Sprintf_url (host : string) (port : Z) : string :=
  "http://" +:+ host +:+ ":" +:+ pretty port.

(** [func main()], up to the call of [systray.Run]. *)
Definition main_start : M unit :=
  let port := 8000%Z in
  let lanIP := getLANIP (InterfaceAddrs env) in
  set_lanURL (Sprintf_url lanIP port) ;;
  url <- get_lanURL ;;
  emit (Println ("Serving at: " +:+ url)) ;;
  startServer.

(** [systray.Run(onReady, onExit)]: calls [onReady] and returns once
    [systray.Quit] has been called; [onExit] is [func() {}]. *)
Definition systray_Run (ready : M unit) (menu : M unit) : M unit :=
  ready ;; menu.

(** [func main()], for the menu clicks the user will make. *)
Definition main (clicks : list MenuAction) : M unit :=
  main_start ;;
  systray_Run onReady (menu_loop clicks).

(** A process whose main goroutine runs [main]: exit status 0 when [main]
    returns.  The server goroutine ([serve]) takes its steps between those
    that follow its launch, as the scheduler decides; the first [os.Exit],
    of either goroutine, ends the run.  Without an exit the process stays:
    the menu loop waits for a click.  The globals are those [main] leaves
    (the program writes none after the launch). *)
Definition run (main : M unit) : Outcome unit * Globals * list Event :=
  match ((main ;; os_Exit 0) : M unit) zero_Globals with
  | (_, g, t) =>
      let t' := until_Exit (launch (schedule env) (trace_of (serve g)) t) in
      (match exit_status t' with
       | Some code => Exited code
       | None => Blocked
       end, g, t')
  end.

(** The process, for the menu clicks the user will make. *)
Definition process (clicks : list MenuAction) : Outcome unit * Globals * list Event :=
  run (main clicks).

(** The answer of the running server to a GET request: [DefaultServeMux] as
    [startServer] left it (the [nil] handler of [ListenAndServe]), once the
    listener is bound. *)
Definition GET_request (r : http.Request) : option http.Response :=
  match (main_start ;; serve) zero_Globals with
  | (Return _, g, _) =>
      Some (http.ServeMux_ServeHTTP (muxVersion env) (DefaultServeMux g) r)
  | _ => None
  end.

(** The answer to [GET path], the path sent in its default encoding. *)
Definition GET (URLPath : string) : option http.Response :=
  GET_request (http.plain URLPath).

End Program.

(** ** The build that serves from disk

    The other [main.go] of the repository differs from the one above in
    [startServer], which serves the directory [./dist] of the working
    directory instead of the embedded tree, and in [onReady], which reads the
    icon from a file. *)

Module FromDisk.

(** [func startServer()]: [http.FileServer(http.Dir("./dist"))]. *)
Definition startServer (env : Env) : M unit :=
  let fs := http.FileServer (http.Dir (disk env) "./dist") in
  http_Handle "/" fs ;;
  emit (Go go_serve).

(** The answer of the running server to a GET request. *)
Definition GET_request (env : Env) (r : http.Request) : option http.Response :=
  match (startServer env ;; serve env) zero_Globals with
  | (Return _, g, _) =>
      Some (http.ServeMux_ServeHTTP (muxVersion env) (DefaultServeMux g) r)
  | _ => None
  end.

(** The answer to [GET path], the path sent in its default encoding. *)
Definition GET (env : Env) (URLPath : string) : option http.Response :=
  GET_request env (http.plain URLPath).

(** [func onReady()]: the icon is read from [tray_icon.png] in the working
    directory and set only when the read succeeds. *)
Definition onReady (env : Env) : M unit :=
  (match disk env "tray_icon.png" with
   | Ok (fs.File iconData) => emit (Tray (SetIcon iconData))
   | _ => ret tt
   end) ;;
  emit (Tray (SetTitle "React Server")) ;;
  emit (Tray (SetTooltip "Serving your React app")) ;;
  emit (Tray (AddMenuItem "Open App" "Open in browser")) ;;
  emit (Tray (AddMenuItem "Copy LAN URL" "Copy link to clipboard")) ;;
  emit (Tray (AddMenuItem "Show QR Code" "Open QR code for phone")) ;;
  emit (Tray (AddMenuItem "Quit" "Stop the server")) ;;
  emit (Go go_menu).

(** [func main()]. *)
Definition main (env : Env) (clicks : list MenuAction) : M unit :=
  let port := 8000%Z in
  let lanIP := getLANIP (InterfaceAddrs env) in
  set_lanURL (Sprintf_url lanIP port) ;;
  url <- get_lanURL ;;
  emit (Println ("Serving at: " +:+ url)) ;;
  startServer env ;;
  systray_Run (onReady env) (menu_loop env clicks).

(** The process, with the server goroutine scheduled as in the embedded
    build. *)
Definition process (env : Env) (clicks : list MenuAction)
  : Outcome unit * Globals * list Event :=
  run env (main env clicks).

End FromDisk.

(** ** The clipboard utilities

    What a copy command leaves on the clipboard when it succeeds: [pbcopy]
    and [xclip -selection clipboard] store their standard input as it is;
    [cmd /c "echo TEXT| clip"] pipes the output of [echo] into [clip], and
    [echo] writes TEXT followed by a carriage return and a line feed. *)

Definition CRLF : string := String (ascii_of_nat 13) (String (ascii_of_nat 10) "").

Definition clipboard_after (c : Cmd) : option string :=
  match Args c with
  | ["pbcopy"] => Some (default "" (Stdin c))
  | ["xclip"; "-selection"; "clipboard"] => Some (default "" (Stdin c))
  | ["cmd"; "/c"; line] =>
      if strings.HasPrefix line "echo " && strings.HasSuffix line "| clip"
      then Some (strings.TrimSuffix (strings.TrimPrefix line "echo ") "| clip" +:+ CRLF)
      else None
  | _ => None
  end.

(** The operating systems [openBrowser] has a case for. *)
Definition supported (goos : string) : bool :=
  String.eqb goos "linux" || String.eqb goos "windows" || String.eqb goos "darwin".

(** ** Vocabulary of the properties *)

(** A name all of whose elements are real ones: no empty element, no ["."],
    no [".."]. *)
Definition elems_ok (name : string) : bool :=
  forallb path.real_elem (strings.SplitSlash name).

(** The file system behind the handler [startServer] registers at ["/"]: the
    embedded tree below ["dist"], seen through [http.FS]. *)
Definition served_root (env : Env) : http.FileSystem :=
  match distFS env with
  | Ok sub => http.FS sub
  | Err err => fun _ => Err err
  end.

(** The menu actions the loop gets to: those up to and including the first
    [Quit]. *)
Fixpoint handled (clicks : list MenuAction) : list MenuAction :=
  match clicks with
  | [] => []
  | Quit :: _ => [Quit]
  | a :: rest => a :: handled rest
  end.

Definition is_Assign (e : Event) : bool :=
  match e with Assign_lanURL _ => true | _ => false end.
Definition is_Recv (e : Event) : bool :=
  match e with Recv _ => true | _ => false end.
Definition is_Log (e : Event) : bool :=
  match e with Log _ => true | _ => false end.
Definition is_Exit (e : Event) : bool :=
  match e with Exit _ => true | _ => false end.
Definition is_Listen (e : Event) : bool :=
  match e with Listen _ => true | _ => false end.
Definition is_ExecStart (e : Event) : bool :=
  match e with ExecStart _ => true | _ => false end.

(** The calls that reach outside the process: a command started or run, the
    QR image written. *)
Definition is_launch (e : Event) : bool :=
  match e with ExecStart _ | ExecRun _ | QRWriteFile _ _ _ => true | _ => false end.

(** The log line a launch leads to: [openBrowser] reports a command that
    could not be started. *)
Definition failure_logged (env : Env) (e : Event) : option Event :=
  match e with
  | ExecStart c => (fun err => Log ("Failed to open browser: " +:+ err)) <$> Start_err env c
  | _ => None
  end.

(** The launches of a handler that failed. *)
Definition failed (env : Env) (e : Event) : bool :=
  match e with
  | ExecStart c => not_nil (Start_err env c)
  | ExecRun c => not_nil (Run_err env c)
  | QRWriteFile content _ file => not_nil (WriteFile_err env content file)
  | _ => false
  end.

(** The events of [main] before the listener and the tray: the write of
    [lanURL], the line on standard output, the launch of the server
    goroutine. *)
Definition start_events (env : Env) : list Event :=
  let url := Sprintf_url (getLANIP (InterfaceAddrs env)) 8000 in
  [Assign_lanURL url; Println ("Serving at: " +:+ url); Go go_serve].

(** The events of [onReady]. *)
Definition ready_events (env : Env) : list Event :=
  [Tray (SetIcon (iconData env)); Tray (SetTitle "React Server");
   Tray (SetTooltip "Serving your React app");
   Tray (AddMenuItem "Open App" "Open in browser");
   Tray (AddMenuItem "Copy LAN URL" "Copy link to clipboard");
   Tray (AddMenuItem "Show QR Code" "Open QR code for phone");
   Tray (AddMenuItem "Quit" "Stop the server"); Go go_menu].

(** The events of the server goroutine: the bind and, when it fails,
    [log.Fatal]. *)
Definition server_events (env : Env) : list Event :=
  Listen ":8000"
    :: match ListenAndServe_err env ":8000" with
       | Some e => [Log e; Exit 1]
       | None => []
       end.

(** The globals once [main] has called [startServer]. *)
Definition started_Globals (env : Env) : Globals :=
  {| lanURL := Sprintf_url (getLANIP (InterfaceAddrs env)) 8000;
     DefaultServeMux := [("/", http.FileServer (served_root env))] |}.

(** The events of one turn of the menu loop, from the receive on. *)
Definition handler_events (env : Env) (g : Globals) (a : MenuAction) : list Event :=
  trace_of (select_case env a g).

(** The events of the menu loop: those of the turns it takes, one after the
    other. *)
Definition menu_events (env : Env) (g : Globals) (clicks : list MenuAction)
  : list Event :=
  concat (map (handler_events env g) (handled clicks)).

Definition is_Quit (a : MenuAction) : bool :=
  match a with Quit => true | _ => false end.

Definition has_Quit (clicks : list MenuAction) : bool := existsb is_Quit clicks.

(** What follows the launch of the server goroutine in the other goroutines:
    [onReady], the menu loop and, once [systray.Quit] has made [main] return,
    the exit with status 0. *)
Definition main_events (env : Env) (clicks : list MenuAction) : list Event :=
  (ready_events env ++ menu_events env (started_Globals env) clicks
     ++ (if has_Quit clicks then [Exit 0] else []))%list.

(** The events of the process after the launch of the server goroutine. *)
Definition scheduled (env : Env) (clicks : list MenuAction) : list Event :=
  until_Exit (interleave (schedule env) (main_events env clicks) (server_events env)).

Definition not_Listen (e : Event) : bool := negb (is_Listen e).

(** The same machine under another scheduler. *)
Definition with_schedule (sched : list bool) (env : Env) : Env :=
  {| GOOS := GOOS env; InterfaceAddrs := InterfaceAddrs env;
     distFiles := distFiles env; disk := disk env; iconData := iconData env;
     Start_err := Start_err env; Run_err := Run_err env;
     WriteFile_err := WriteFile_err env;
     ListenAndServe_err := ListenAndServe_err env;
     schedule := sched; muxVersion := muxVersion env |}.

(** *** Sample machines *)

Definition hi_html : list byte := list_byte_of_string "<html>hi</html>".

(** The bundle of the specification's scenario: one document. *)
Definition dist_index : gmap string fs.Node :=
  {[ "dist" := fs.Dir ["index.html"]; "dist/index.html" := fs.File hi_html ]}.

(** A bundle without an index document. *)
Definition dist_plain : gmap string fs.Node :=
  {[ "dist" := fs.Dir ["a.txt"]; "dist/a.txt" := fs.File hi_html ]}.

(** The interfaces of the specification's scenario: 127.0.0.1/8, then
    192.168.1.5/24. *)
Definition loopback_and_lan : list net.Addr :=
  [net.IPNet (net.IPv4 x7f x00 x00 x01) [xff; x00; x00; x00];
   net.IPNet (net.IPv4 xc0 xa8 x01 x05) [xff; xff; xff; x00]].

(** A machine where every external call succeeds and the port is free. *)
Definition machine (goos : string) (addrs : list net.Addr)
    (files : gmap string fs.Node) : Env :=
  {| GOOS := goos; InterfaceAddrs := Ok addrs; distFiles := files;
     disk := fs.embed_Open files; iconData := [];
     Start_err := fun _ => None; Run_err := fun _ => None;
     WriteFile_err := fun _ _ => None; ListenAndServe_err := fun _ => None;
     schedule := []; muxVersion := http.mkMuxVersion false true |}.

(** The same machine with the port taken. *)
Definition machine_port_taken (goos : string) : Env :=
  {| GOOS := goos; InterfaceAddrs := Ok loopback_and_lan; distFiles := dist_index;
     disk := fs.embed_Open dist_index; iconData := [];
     Start_err := fun _ => None; Run_err := fun _ => None;
     WriteFile_err := fun _ _ => None;
     ListenAndServe_err :=
       fun _ => Some "listen tcp :8000: bind: address already in use";
     schedule := []; muxVersion := http.mkMuxVersion false true |}.

(** The same machine where the clipboard command and the QR file write fail. *)
Definition machine_failing (goos : string) : Env :=
  {| GOOS := goos; InterfaceAddrs := Ok loopback_and_lan; distFiles := dist_index;
     disk := fs.embed_Open dist_index; iconData := [];
     Start_err := fun _ => None;
     Run_err := fun _ => Some "exit status 1";
     WriteFile_err := fun _ _ => Some "permission denied";
     ListenAndServe_err := fun _ => None;
     schedule := []; muxVersion := http.mkMuxVersion false true |}.

(** *** Vocabulary of the further properties *)

(** Dotted decimal text of four bytes. *)
Definition dotted (a b c d : byte) : string :=
  net.ubtoa a +:+ "." +:+ net.ubtoa b +:+ "." +:+ net.ubtoa c +:+ "." +:+ net.ubtoa d.

(** A name of the embedded tree at or below ["dist"]. *)
Definition under_dist (key : string) : bool :=
  String.eqb key "dist" || strings.HasPrefix key "dist/".


Fixpoint has_slash (s : string) : bool :=
  match s with
  | "" => false
  | String a s' => Ascii.eqb a "/" || has_slash s'
  end.

Definition slashless (elems : list string) : bool :=
  forallb (fun e => negb (has_slash e)) elems.

Definition is_SetIcon (e : Event) : bool :=
  match e with Tray (SetIcon _) => true | _ => false end.

Definition not_SetIcon (e : Event) : bool := negb (is_SetIcon e).

(** What [os.ReadFile("tray_icon.png")] gives: the bytes of a regular file. *)
Definition icon_file (env : Env) : option (list byte) :=
  match disk env "tray_icon.png" with
  | Ok (fs.File data) => Some data
  | _ => None
  end.

(** What follows the call of [systray.SetIcon] in [main_events]. *)
Definition after_icon (env : Env) (clicks : list MenuAction) : list Event :=
  (tail (ready_events env) ++ menu_events env (started_Globals env) clicks
     ++ (if has_Quit clicks then [Exit 0] else []))%list.

(** The scheduler of the run of the embedded build that goes with a run of
    the build that serves from disk: the same one, with one more step for the
    call of [systray.SetIcon] when the disk build does not make it. *)
Definition icon_schedule (env : Env) : list bool :=
  match icon_file env with
  | Some _ => schedule env
  | None => false :: schedule env
  end.

(** The globals of the build that serves from disk, once [main] has called
    [startServer]. *)
Definition disk_Globals (env : Env) : Globals :=
  {| lanURL := Sprintf_url (getLANIP (InterfaceAddrs env)) 8000;
     DefaultServeMux := [("/", http.FileServer (http.Dir (disk env) "./dist"))] |}.

(** A bundle with a file next to ["dist"], outside the served tree. *)
Definition dist_with_secret : gmap string fs.Node :=
  <["secret.txt" := fs.File hi_html]> dist_plain.

(** A bundle with a directory of assets that has no index document. *)
Definition dist_assets : gmap string fs.Node :=
  {[ "dist" := fs.Dir ["assets"; "index.html"];
     "dist/index.html" := fs.File hi_html;
     "dist/assets" := fs.Dir ["app.js"];
     "dist/assets/app.js" := fs.File hi_html ]}.

(** * Properties *)

(** ** NetworkLocator *)

Section Locator.

Lemma To4_length ip ip4 : net.To4 ip = Some ip4 -> length ip4 = 4.
Proof.
  unfold net.To4. destruct (Nat.eqb_spec (length ip) net.IPv4len) as [H4|_].
  - intros [= <-]. exact H4.
  - destruct (Nat.eqb_spec (length ip) net.IPv6len) as [H16|_]; [|discriminate].
    unfold net.IPv6len in H16. cbn [andb].
    destruct (_ && _ && _); [|discriminate].
    intros [= <-]. rewrite length_take, length_drop. lia.
Qed.

Lemma To4_idempotent ip ip4 : net.To4 ip = Some ip4 -> net.To4 ip4 = Some ip4.
Proof.
  intros H. apply To4_length in H. unfold net.To4.
  rewrite H. reflexivity.
Qed.

Lemma String_To4 ip ip4 : net.To4 ip = Some ip4 -> net.String ip4 = net.String ip.
Proof.
  intros H. unfold net.String. rewrite H, (To4_idempotent _ _ H). reflexivity.
Qed.

Lemma String_nonempty ip ip4 : net.To4 ip = Some ip4 -> net.String ip <> "".
Proof.
  intros H. unfold net.String. rewrite H. apply To4_length in H.
  destruct ip4 as [|a [|b [|c [|d [|? ?]]]]]; try discriminate H.
  destruct (net.ubtoa a); discriminate.
Qed.

Lemma getLANIP_range_skip before rest :
  forallb (fun x => negb (nonloopback_ipv4 x)) before = true ->
  getLANIP_range (before ++ rest) = getLANIP_range rest.
Proof.
  induction before as [|x before IH]; [reflexivity|].
  cbn [forallb]. intros H. apply andb_prop in H as [Hx Hb].
  cbn [app getLANIP_range]. destruct x as [ip m|ip z]; [|exact (IH Hb)].
  cbn [nonloopback_ipv4] in Hx.
  destruct (net.IsLoopback ip); cbn [negb andb] in Hx |- *; [exact (IH Hb)|].
  destruct (net.To4 ip) as [ip4|]; [|exact (IH Hb)].
  discriminate Hx.
Qed.

Lemma getLANIP_range_hit a rest :
  nonloopback_ipv4 a = true ->
  getLANIP_range (a :: rest) = addr_host a /\ addr_host a <> "".
Proof.
  destruct a as [ip m|ip z]; [|discriminate].
  cbn [nonloopback_ipv4 getLANIP_range addr_host]. intros H.
  apply andb_prop in H as [Hl H4]. rewrite Hl.
  destruct (net.To4 ip) as [ip4|] eqn:E4; [clear H4; rename E4 into H4 | discriminate H4].
  split; [exact (String_To4 _ _ H4) | exact (String_nonempty _ _ H4)].
Qed.

End Locator.

(** C3. [getLANIP] walks the interface addresses in the order
    [net.InterfaceAddrs] gives them.  When the list holds a non-loopback IPv4
    interface address, the result is the dotted-decimal text of the first one,
    and that text is not empty; when it holds none, and also when the
    enumeration itself fails, the result is the empty string.  No case raises
    an error: the function is total and has no error result.  An interface
    address is an entry of dynamic type [*net.IPNet]; it is an IPv4 address
    when [To4] gives its 4-byte form, and loopback when that begins with 127. *)
Theorem getLANIP_first_nonloopback_ipv4 (r : result string (list net.Addr)) :
  (forall addrs before a after,
      r = Ok addrs -> addrs = (before ++ a :: after)%list ->
      forallb (fun x => negb (nonloopback_ipv4 x)) before = true ->
      nonloopback_ipv4 a = true ->
      getLANIP r = addr_host a /\ getLANIP r <> "")
  /\ (forall addrs,
      r = Ok addrs ->
      forallb (fun x => negb (nonloopback_ipv4 x)) addrs = true ->
      getLANIP r = "")
  /\ (forall e, r = Err e -> getLANIP r = "").
Proof.
  split; [|split].
  - intros addrs before a after -> -> Hb Ha. cbn [getLANIP].
    rewrite (getLANIP_range_skip _ _ Hb).
    destruct (getLANIP_range_hit a after Ha) as [-> Hne]. split; [reflexivity | exact Hne].
  - intros addrs -> Hb. cbn [getLANIP].
    rewrite <- (app_nil_r addrs). rewrite (getLANIP_range_skip _ _ Hb). reflexivity.
  - intros e ->. reflexivity.
Qed.

(** The scenario of the specification: 127.0.0.1 first, then 192.168.1.5. *)
Example getLANIP_scenario : getLANIP (Ok loopback_and_lan) = "192.168.1.5".
Proof. reflexivity. Qed.

(** ** ServerController *)

(** *** Paths: splitting, joining and cleaning *)

Lemma push_byte_nonempty a l : strings.push_byte a l <> [].
Proof. destruct l; discriminate. Qed.

Lemma SplitSlash_nonempty s : strings.SplitSlash s <> [].
Proof.
  destruct s as [|a s]; simpl; [discriminate|].
  destruct (Ascii.eqb a "/"); [discriminate | apply push_byte_nonempty].
Qed.

Lemma JoinSlash_push a l :
  l <> [] -> strings.JoinSlash (strings.push_byte a l) = String a (strings.JoinSlash l).
Proof.
  destruct l as [|w ws]; [congruence|]. intros _.
  unfold strings.JoinSlash. simpl. destruct ws; reflexivity.
Qed.

Lemma JoinSlash_cons_empty l :
  l <> [] -> strings.JoinSlash ("" :: l) = String "/" (strings.JoinSlash l).
Proof.
  destruct l as [|w ws]; [congruence|]. intros _. reflexivity.
Qed.

Lemma Join_Split s : strings.JoinSlash (strings.SplitSlash s) = s.
Proof.
  induction s as [|a s IH]; [reflexivity|]. simpl.
  destruct (Ascii.eqb_spec a "/") as [->|Hne].
  - rewrite JoinSlash_cons_empty by apply SplitSlash_nonempty. by rewrite IH.
  - rewrite JoinSlash_push by apply SplitSlash_nonempty. by rewrite IH.
Qed.

Lemma clean_elems_real rooted out elems :
  forallb path.real_elem elems = true ->
  path.clean_elems rooted out elems = (rev elems ++ out)%list.
Proof.
  revert out. induction elems as [|e rest IH]; intros out H; [reflexivity|].
  simpl in H. apply andb_prop in H as [He Hrest].
  unfold path.real_elem in He.
  apply andb_prop in He as [He He3]. apply andb_prop in He as [He1 He2].
  simpl.
  apply negb_true_iff in He1, He2, He3. rewrite He1, He2, He3. simpl.
  rewrite IH by done. by rewrite <- app_assoc.
Qed.

Lemma Clean_rooted name :
  elems_ok name = true -> path.Clean ("/" +:+ name) = "/" +:+ name.
Proof.
  intros H. change ("/" +:+ name) with (String "/" name).
  unfold path.Clean.
  change (String.eqb (String "/" name) "") with false.
  change (strings.HasPrefix (String "/" name) "/") with true.
  change (strings.SplitSlash (String "/" name)) with ("" :: strings.SplitSlash name).
  change (path.clean_elems true [] ("" :: strings.SplitSlash name))
    with (path.clean_elems true [] (strings.SplitSlash name)).
  cbv beta iota zeta.
  rewrite clean_elems_real by exact H.
  rewrite app_nil_r, rev_involutive, Join_Split. reflexivity.
Qed.

Lemma Clean_relative s :
  elems_ok s = true -> path.Clean s = s.
Proof.
  intros H. unfold path.Clean.
  destruct s as [|a s]; [discriminate H|].
  simpl String.eqb.
  assert (Hr : strings.HasPrefix (String a s) "/" = false).
  { cbn [strings.HasPrefix].
    destruct (Ascii.eqb_spec "/" a) as [<-|]; [discriminate H | reflexivity]. }
  rewrite Hr, clean_elems_real by exact H.
  rewrite app_nil_r, rev_involutive.
  pose proof (SplitSlash_nonempty (String a s)) as Hn.
  pose proof (Join_Split (String a s)) as Hj.
  destruct (strings.SplitSlash (String a s)); [congruence | exact Hj].
Qed.

Lemma HasSuffix_slash_split s :
  strings.HasSuffix s "/" = true ->
  exists l, l <> [] /\ strings.SplitSlash s = (l ++ [""])%list.
Proof.
  induction s as [|a s IH]; [discriminate|].
  cbn [strings.HasSuffix]. intros H. apply orb_prop in H as [H|H].
  - apply String.eqb_eq in H. injection H as -> ->.
    exists [""]. split; [discriminate | reflexivity].
  - destruct (IH H) as (l & Hl & Hs).
    cbn [strings.SplitSlash]. rewrite Hs.
    destruct (Ascii.eqb a "/").
    + exists ("" :: l). split; [discriminate | reflexivity].
    + destruct l as [|w ws]; [congruence|].
      exists (String a w :: ws). split; [discriminate | reflexivity].
Qed.

Lemma elems_ok_no_trailing_slash s :
  elems_ok s = true -> strings.HasSuffix s "/" = false.
Proof.
  intros H. destruct (strings.HasSuffix s "/") eqn:E; [|reflexivity].
  destruct (HasSuffix_slash_split s E) as (l & _ & Hs).
  unfold elems_ok in H. rewrite Hs, forallb_app in H.
  apply andb_prop in H as [_ H]. discriminate H.
Qed.

Lemma elems_ok_nonempty s : elems_ok s = true -> s <> "".
Proof. intros H ->. discriminate H. Qed.

Lemma Join_dist name :
  elems_ok name = true -> path.Join "dist" name = "dist/" +:+ name.
Proof.
  intros H. unfold path.Join. simpl.
  destruct name as [|a name]; [discriminate H|]. simpl String.eqb. cbv iota.
  apply Clean_relative. simpl. exact H.
Qed.

Section Server.
Variable env : Env.

Lemma distFS_eq :
  distFS env = Ok (fun name =>
             if negb (fs.ValidPath name) then Err fs.ErrInvalid
             else fs.embed_Open (distFiles env) (path.Join "dist" name)).
Proof. reflexivity. Qed.

Lemma GET_request_bound r :
  ListenAndServe_err env ":8000" = None ->
  GET_request env r =
    Some (http.ServeMux_ServeHTTP (muxVersion env)
            [("/", http.FileServer (served_root env))] r).
Proof.
  intros Hb. unfold GET_request, main_start, serve, startServer.
  rewrite distFS_eq, Hb. reflexivity.
Qed.

Lemma GET_bound URLPath :
  ListenAndServe_err env ":8000" = None ->
  GET env URLPath =
    Some (http.ServeMux_ServeHTTP (muxVersion env)
            [("/", http.FileServer (served_root env))] (http.plain URLPath)).
Proof. apply GET_request_bound. Qed.

Lemma GET_request_not_bound r e :
  ListenAndServe_err env ":8000" = Some e -> GET_request env r = None.
Proof.
  intros Hb. unfold GET_request, main_start, serve, startServer.
  rewrite distFS_eq, Hb. reflexivity.
Qed.

Lemma GET_not_bound URLPath e :
  ListenAndServe_err env ":8000" = Some e -> GET env URLPath = None.
Proof. apply GET_request_not_bound. Qed.
End Server.

Lemma cleanPath_rooted name :
  elems_ok name = true -> http.cleanPath ("/" +:+ name) = "/" +:+ name.
Proof.
  intros H.
  pose proof (elems_ok_no_trailing_slash _ H) as Hts.
  pose proof (elems_ok_nonempty _ H) as Hne.
  unfold http.cleanPath. change ("/" +:+ name) with (String "/" name).
  change (String.eqb (String "/" name) "") with false.
  change (strings.HasPrefix (String "/" name) "/") with true.
  cbv beta iota zeta. change (negb true) with false. cbv iota.
  change (String "/" name) with ("/" +:+ name). rewrite Clean_rooted by exact H.
  assert (Hs : http.ends_in_slash ("/" +:+ name) = false).
  { unfold http.ends_in_slash. change ("/" +:+ name) with (String "/" name).
    cbn [strings.HasSuffix]. rewrite Hts.
    destruct name; [congruence | reflexivity]. }
  rewrite Hs. reflexivity.
Qed.

(** *** The encoded form of a path *)

Lemma escape_byte_cases c :
  (url.shouldEscape c = false /\ url.escape_byte c = String c "")
  \/ (url.shouldEscape c = true
      /\ exists h1 h2, url.escape_byte c = String "%" (String h1 (String h2 ""))
                       /\ Ascii.eqb h1 "/" = false /\ Ascii.eqb h2 "/" = false).
Proof.
  destruct c as [[] [] [] [] [] [] [] []];
    first [ left; split; reflexivity
          | right; split; [reflexivity|]; eexists; eexists; repeat split; reflexivity ].
Qed.

Lemma escape_cons c s : url.escape (String c s) = url.escape_byte c +:+ url.escape s.
Proof. reflexivity. Qed.

Lemma escape_eqb_empty e : String.eqb (url.escape e) "" = String.eqb e "".
Proof.
  destruct e as [|c e]; [reflexivity|]. rewrite escape_cons.
  destruct (escape_byte_cases c) as [[_ ->] | [_ (h1 & h2 & -> & _)]]; reflexivity.
Qed.

Lemma escape_eqb_dot e : String.eqb (url.escape e) "." = String.eqb e ".".
Proof.
  destruct e as [|c e]; [reflexivity|]. rewrite escape_cons.
  destruct (escape_byte_cases c) as [[_ ->] | [Hs (h1 & h2 & -> & _)]].
  - change (String c "" +:+ url.escape e) with (String c (url.escape e)).
    cbn [String.eqb]. destruct (Ascii.eqb c "."); [|reflexivity].
    apply escape_eqb_empty.
  - cbn. destruct (Ascii.eqb_spec c "."%char) as [->|]; [discriminate Hs | reflexivity].
Qed.

Lemma escape_eqb_dotdot e : String.eqb (url.escape e) ".." = String.eqb e "..".
Proof.
  destruct e as [|c e]; [reflexivity|]. rewrite escape_cons.
  destruct (escape_byte_cases c) as [[_ ->] | [Hs (h1 & h2 & -> & _)]].
  - change (String c "" +:+ url.escape e) with (String c (url.escape e)).
    cbn [String.eqb]. destruct (Ascii.eqb c "."); [|reflexivity].
    apply escape_eqb_dot.
  - cbn. destruct (Ascii.eqb_spec c "."%char) as [->|]; [discriminate Hs | reflexivity].
Qed.

Lemma real_elem_escape e : path.real_elem (url.escape e) = path.real_elem e.
Proof.
  unfold path.real_elem.
  rewrite escape_eqb_empty, escape_eqb_dot, escape_eqb_dotdot. reflexivity.
Qed.

Lemma SplitSlash_escape s :
  strings.SplitSlash (url.escape s) = map url.escape (strings.SplitSlash s).
Proof.
  induction s as [|c s IH]; [reflexivity|].
  rewrite escape_cons. cbn [strings.SplitSlash].
  pose proof (SplitSlash_nonempty s) as Hn.
  destruct (escape_byte_cases c) as [[Hs E] | [Hs (h1 & h2 & E & H1 & H2)]]; rewrite E.
  - change (String c "" +:+ url.escape s) with (String c (url.escape s)).
    cbn [strings.SplitSlash]. rewrite IH.
    destruct (Ascii.eqb c "/"); [reflexivity|].
    destruct (strings.SplitSlash s) as [|w ws]; [congruence|].
    cbn [map strings.push_byte]. rewrite escape_cons, E. reflexivity.
  - change (String "%" (String h1 (String h2 "")) +:+ url.escape s)
      with (String "%" (String h1 (String h2 (url.escape s)))).
    cbn [strings.SplitSlash]. rewrite H1, H2, IH.
    change (Ascii.eqb "%" "/") with false. cbv iota.
    destruct (Ascii.eqb_spec c "/"%char) as [->|_]; [discriminate Hs|].
    destruct (strings.SplitSlash s) as [|w ws]; [congruence|].
    cbn [map strings.push_byte]. rewrite escape_cons, E. reflexivity.
Qed.

Lemma elems_ok_escape name : elems_ok (url.escape name) = elems_ok name.
Proof.
  unfold elems_ok. rewrite SplitSlash_escape.
  induction (strings.SplitSlash name) as [|e l IH]; [reflexivity|].
  cbn [map forallb]. rewrite real_elem_escape, IH. reflexivity.
Qed.

Lemma escape_app u v : url.escape (u +:+ v) = url.escape u +:+ url.escape v.
Proof.
  induction u as [|c u IH]; [reflexivity|].
  change (String c u +:+ v) with (String c (u +:+ v)).
  rewrite !escape_cons, IH.
  destruct (escape_byte_cases c) as [[_ ->] | [_ (h1 & h2 & -> & _)]]; reflexivity.
Qed.

Lemma EscapedPath_rooted s : url.EscapedPath ("/" +:+ s) = "/" +:+ url.escape s.
Proof. reflexivity. Qed.

Lemma registered_root (h : http.Handler) q :
  http.registered [("/", h)] q = if String.eqb "/" q then Some h else None.
Proof.
  unfold http.registered. cbn [find fst].
  destruct (String.eqb "/" q); reflexivity.
Qed.

Lemma Clean_starts_with_slash p :
  strings.HasPrefix p "/" = true -> exists s, path.Clean p = "/" +:+ s.
Proof.
  intros H. unfold path.Clean. destruct p as [|a p]; [discriminate H|].
  change (String.eqb (String a p) "") with false. cbv iota zeta. rewrite H. eauto.
Qed.

Lemma cleanPath_starts_with_slash p : exists s, http.cleanPath p = "/" +:+ s.
Proof.
  unfold http.cleanPath. destruct (String.eqb p "").
  { exists "". reflexivity. }
  set (q := if negb (strings.HasPrefix p "/") then "/" +:+ p else p).
  assert (Hq : strings.HasPrefix q "/" = true).
  { subst q. destruct (strings.HasPrefix p "/") eqn:E; [exact E | reflexivity]. }
  destruct (Clean_starts_with_slash q Hq) as [s Hs]. cbv zeta. rewrite Hs.
  destruct (_ && _); [exists (s +:+ "/") | exists s]; reflexivity.
Qed.

(** The mux with the single pattern "/": a bad request for [*], a redirect
    for a path that is not in canonical form, the handler for the others. *)
Lemma mux_root (v : http.MuxVersion) (h : http.Handler) (r : http.Request) :
  http.ServeMux_ServeHTTP v [("/", h)] r
  = if String.eqb (http.Path r) "*" then http.Error http.StatusBadRequest
    else if negb (String.eqb (http.cleanPath (http.mux_path v r)) (http.mux_path v r))
    then http.mux_redirect v (http.cleanPath (http.mux_path v r))
    else h (http.Path r).
Proof.
  unfold http.ServeMux_ServeHTTP.
  destruct (String.eqb (http.Path r) "*"); [reflexivity|]. cbv zeta.
  destruct (cleanPath_starts_with_slash (http.mux_path v r)) as [s Hs]. rewrite Hs.
  assert (Hsr : http.shouldRedirect [("/", h)] ("/" +:+ s) = false).
  { unfold http.shouldRedirect. rewrite !registered_root.
    change (("/" +:+ s) +:+ "/") with ("/" +:+ (s +:+ "/")).
    assert (E : String.eqb "/" ("/" +:+ (s +:+ "/")) = false)
      by (destruct s; reflexivity).
    rewrite E. destruct (String.eqb "/" ("/" +:+ s)); reflexivity. }
  rewrite Hsr.
  destruct (String.eqb ("/" +:+ s) (http.mux_path v r)) eqn:E; cbn [negb]; [|reflexivity].
  apply String.eqb_eq in E. rewrite <- E.
  unfold http.mux_match. rewrite registered_root.
  destruct (String.eqb "/" ("/" +:+ s)); reflexivity.
Qed.

(** The path the mux looks at when the request is for a canonical path in
    its default encoding. *)
Lemma mux_path_plain v name :
  elems_ok name = true ->
  exists name', elems_ok name' = true
                /\ http.mux_path v (http.plain ("/" +:+ name)) = "/" +:+ name'.
Proof.
  intros H. unfold http.mux_path, http.plain. cbn [http.Path http.EscapedPath].
  destruct (http.httpmuxgo121 v).
  - exists name. split; [exact H | reflexivity].
  - exists (url.escape name). split; [|reflexivity].
    rewrite elems_ok_escape. exact H.
Qed.

Lemma mux_root_canonical (v : http.MuxVersion) (h : http.Handler) name :
  elems_ok name = true ->
  http.ServeMux_ServeHTTP v [("/", h)] (http.plain ("/" +:+ name)) = h ("/" +:+ name).
Proof.
  intros H. rewrite mux_root.
  destruct (mux_path_plain v name H) as (name' & H' & ->).
  rewrite (cleanPath_rooted _ H'), String.eqb_refl. reflexivity.
Qed.

Lemma substring_0_length s : String.substring 0 (String.length s) s = s.
Proof. induction s as [|a s IH]; [reflexivity|]. cbn. by rewrite IH. Qed.

Lemma TrimPrefix_slash name : strings.TrimPrefix ("/" +:+ name) "/" = name.
Proof.
  unfold strings.TrimPrefix. change ("/" +:+ name) with (String "/" name).
  change (strings.HasPrefix (String "/" name) "/") with true. cbv iota.
  cbn [String.length String.substring Nat.sub]. rewrite Nat.sub_0_r. apply substring_0_length.
Qed.

Lemma served_root_lookup env name :
  fs.ValidPath ("dist/" +:+ name) = true ->
  served_root env ("/" +:+ name) =
    match distFiles env !! ("dist/" +:+ name) with
    | Some n => Ok n
    | None => Err fs.ErrNotExist
    end.
Proof.
  intros Hv.
  assert (Hu : utf8.ValidString name = true /\ elems_ok name = true).
  { unfold fs.ValidPath in Hv. apply andb_prop in Hv as [Hu He]. split; [exact Hu|].
    apply orb_prop in He as [He|He]; [destruct name; discriminate He|].
    apply andb_prop in He as [_ He]. exact He. }
  destruct Hu as [Hu He].
  assert (Hname : fs.ValidPath name = true).
  { unfold fs.ValidPath. rewrite Hu. cbn [andb]. apply orb_true_intro. right. exact He. }
  unfold served_root. rewrite distFS_eq. unfold http.FS.
  assert (Hroot : String.eqb ("/" +:+ name) "/" = false).
  { pose proof (elems_ok_nonempty _ He). destruct name; [congruence | reflexivity]. }
  rewrite Hroot, TrimPrefix_slash, Hname. cbn [negb].
  rewrite (Join_dist _ He). unfold fs.embed_Open. rewrite Hv.
  destruct (distFiles env !! ("dist/" +:+ name)); reflexivity.
Qed.

Lemma FileServer_canonical (root : http.FileSystem) name :
  elems_ok name = true ->
  http.FileServer root ("/" +:+ name) =
    if strings.HasSuffix ("/" +:+ name) "/index.html" then http.MovedPermanently "./"
    else match root ("/" +:+ name) with
         | Ok (fs.File data) => http.Content data
         | Ok (fs.Dir _) => http.MovedPermanently (path.Base ("/" +:+ name) +:+ "/")
         | Err err => http.toHTTPError err
         end.
Proof.
  intros He. unfold http.FileServer.
  change (strings.HasPrefix ("/" +:+ name) "/") with true. cbn [negb].
  rewrite (Clean_rooted _ He). unfold http.serveFile, http.indexPage.
  destruct (strings.HasSuffix ("/" +:+ name) "/index.html"); [reflexivity|].
  assert (Hs : http.ends_in_slash ("/" +:+ name) = false).
  { unfold http.ends_in_slash. change ("/" +:+ name) with (String "/" name).
    cbn [strings.HasSuffix]. rewrite (elems_ok_no_trailing_slash _ He).
    pose proof (elems_ok_nonempty _ He). destruct name; [congruence | reflexivity]. }
  destruct (root ("/" +:+ name)) as [[data|entries]|err]; rewrite ?Hs; reflexivity.
Qed.

Lemma ValidPath_dist_elems name :
  fs.ValidPath ("dist/" +:+ name) = true -> elems_ok name = true.
Proof.
  unfold fs.ValidPath. intros Hv. apply andb_prop in Hv as [_ He].
  apply orb_prop in He as [He|He]; [destruct name; discriminate He|].
  apply andb_prop in He as [_ He]. exact He.
Qed.

Lemma FileServer_lookup env name :
  fs.ValidPath ("dist/" +:+ name) = true ->
  http.FileServer (served_root env) ("/" +:+ name) =
    if strings.HasSuffix ("/" +:+ name) "/index.html" then http.MovedPermanently "./"
    else match distFiles env !! ("dist/" +:+ name) with
         | Some (fs.File data) => http.Content data
         | Some (fs.Dir _) => http.MovedPermanently (path.Base ("/" +:+ name) +:+ "/")
         | None => http.Error http.StatusNotFound
         end.
Proof.
  intros Hv.
  rewrite (FileServer_canonical _ _ (ValidPath_dist_elems _ Hv)).
  rewrite (served_root_lookup _ _ Hv).
  destruct (distFiles env !! ("dist/" +:+ name)) as [[data|entries]|]; reflexivity.
Qed.

(** *** The build that serves from disk *)






(** C1, as amended.  With the listener bound, a GET for the path of a regular
    file of the embedded bundle is answered with exactly the bytes of that
    file, unless the path ends in [/index.html]: such a request is answered
    with a redirect (301) to ["./"], the directory of the document. *)
Theorem GET_embedded_file (env : Env) (name : string) (data : list byte) :
  ListenAndServe_err env ":8000" = None ->
  fs.ValidPath ("dist/" +:+ name) = true ->
  distFiles env !! ("dist/" +:+ name) = Some (fs.File data) ->
  GET env ("/" +:+ name) =
    Some (if strings.HasSuffix ("/" +:+ name) "/index.html"
          then http.MovedPermanently "./"
          else http.Content data).
Proof.
  intros Hb Hv Hf.
  pose proof (ValidPath_dist_elems _ Hv) as He.
  rewrite (GET_bound env _ Hb), (mux_root_canonical _ _ _ He).
  rewrite (FileServer_lookup env name Hv), Hf. reflexivity.
Qed.

Lemma GET_embedded_file_witness :
  GET (machine "linux" loopback_and_lan dist_plain) "/a.txt" = Some (http.Content hi_html).
Proof.
  apply (GET_embedded_file (machine "linux" loopback_and_lan dist_plain) "a.txt" hi_html);
    vm_compute; reflexivity.
Defined.

(** C1 as stated fails on the bundle of the specification's own scenario:
    [/index.html] is a path of the source, and the GET for it is answered with
    a redirect, not with the document. *)
Lemma GET_index_html_is_redirected :
  let env := machine "linux" loopback_and_lan dist_index in
  ListenAndServe_err env ":8000" = None
  /\ distFiles env !! "dist/index.html" = Some (fs.File hi_html)
  /\ GET env "/index.html" = Some (http.MovedPermanently "./")
  /\ GET env "/index.html" <> Some (http.Content hi_html).
Proof. vm_compute. repeat split; discriminate. Qed.

(** C2, as amended.  With the listener bound, a GET for a path that names
    nothing in the embedded bundle is answered with 404 Not Found, unless the
    path ends in [/index.html]: such a request is answered with a redirect
    (301) to ["./"] whether or not the document exists.  In neither case is a
    document served in place of the missing one. *)
Theorem GET_absent_path (env : Env) (name : string) :
  ListenAndServe_err env ":8000" = None ->
  fs.ValidPath ("dist/" +:+ name) = true ->
  distFiles env !! ("dist/" +:+ name) = None ->
  GET env ("/" +:+ name) =
    Some (if strings.HasSuffix ("/" +:+ name) "/index.html"
          then http.MovedPermanently "./"
          else http.Error http.StatusNotFound)
  /\ (forall r, GET env ("/" +:+ name) = Some r -> http.StatusCode r <> 200%Z).
Proof.
  intros Hb Hv Hf.
  pose proof (ValidPath_dist_elems _ Hv) as He.
  assert (Hg : GET env ("/" +:+ name) =
    Some (if strings.HasSuffix ("/" +:+ name) "/index.html"
          then http.MovedPermanently "./"
          else http.Error http.StatusNotFound)).
  { rewrite (GET_bound env _ Hb), (mux_root_canonical _ _ _ He).
    rewrite (FileServer_lookup env name Hv), Hf. reflexivity. }
  split; [exact Hg|].
  intros r Hr. rewrite Hg in Hr. clear Hg.
  destruct (strings.HasSuffix ("/" +:+ name) "/index.html"); simplify_eq;
    intros H; vm_compute in H; discriminate H.
Qed.

Lemma GET_absent_path_witness :
  GET (machine "linux" loopback_and_lan dist_index) "/missing"
    = Some (http.Error http.StatusNotFound).
Proof.
  apply (GET_absent_path (machine "linux" loopback_and_lan dist_index) "missing");
    vm_compute; reflexivity.
Defined.

(** C2 as stated fails on a bundle without an index document: nothing is
    stored under [/index.html], and the GET for it is answered with a redirect,
    not with 404; the path it redirects to is answered with a listing of the
    directory. *)
Lemma GET_missing_index_html_is_redirected :
  let env := machine "linux" loopback_and_lan dist_plain in
  ListenAndServe_err env ":8000" = None
  /\ distFiles env !! "dist/index.html" = None
  /\ GET env "/index.html" = Some (http.MovedPermanently "./")
  /\ GET env "/index.html" <> Some (http.Error http.StatusNotFound)
  /\ GET env "/" = Some (http.DirList ["a.txt"]).
Proof. vm_compute. repeat split; discriminate. Qed.

(** *** Further properties of the server *)

(** X1. The document of the root path: with the listener bound, [GET /] is
    answered with the bytes of the bundle's [index.html]. *)
Theorem GET_root_serves_index_document (env : Env) (entries : list string) (data : list byte) :
  ListenAndServe_err env ":8000" = None ->
  distFiles env !! "dist" = Some (fs.Dir entries) ->
  distFiles env !! "dist/index.html" = Some (fs.File data) ->
  GET env "/" = Some (http.Content data).
Proof.
  intros Hb Hd Hf. rewrite (GET_bound env _ Hb).
  assert (Hroot : served_root env "/" = Ok (fs.Dir entries)).
  { unfold served_root. rewrite distFS_eq. unfold http.FS.
    change (String.eqb "/" "/") with true. cbv iota.
    change (fs.ValidPath ".") with true. cbn [negb].
    change (path.Join "dist" ".") with "dist".
    unfold fs.embed_Open. change (fs.ValidPath "dist") with true. cbv iota.
    rewrite Hd. reflexivity. }
  assert (Hidx : served_root env "/index.html" = Ok (fs.File data)).
  { change "/index.html" with ("/" +:+ "index.html").
    rewrite served_root_lookup by reflexivity.
    change ("dist/" +:+ "index.html") with "dist/index.html". rewrite Hf. reflexivity. }
  rewrite mux_root.
  assert (Hp : http.mux_path (muxVersion env) (http.plain "/") = "/")
    by (unfold http.mux_path; destruct (http.httpmuxgo121 _); reflexivity).
  rewrite Hp.
  change (http.FileServer (served_root env) (http.Path (http.plain "/")))
    with (http.serveFile (served_root env) "/" "/" true).
  cbn [http.Path http.plain String.eqb Ascii.eqb Bool.eqb].
  change (String.eqb (http.cleanPath "/") "/") with true. cbn [negb].
  unfold http.serveFile. change (strings.HasSuffix "/" http.indexPage) with false.
  cbv iota. rewrite Hroot.
  change (http.ends_in_slash "/") with true. cbn [negb]. cbv iota.
  change (String.eqb "/" "") with false. cbn [orb]. cbv iota.
  change (strings.TrimSuffix "/" "/" +:+ http.indexPage) with "/index.html".
  rewrite Hidx. reflexivity.
Qed.

Lemma GET_root_serves_index_document_witness :
  GET (machine "linux" loopback_and_lan dist_index) "/" = Some (http.Content hi_html).
Proof.
  apply (GET_root_serves_index_document
           (machine "linux" loopback_and_lan dist_index) ["index.html"] hi_html);
    vm_compute; reflexivity.
Defined.





(** ** Goroutines: the scheduler *)

Lemma interleave_nil_r sched a : interleave sched a [] = a.
Proof. destruct sched; [apply app_nil_l | reflexivity]. Qed.

Lemma interleave_nil_l sched s : interleave sched [] s = s.
Proof.
  revert s. induction sched as [|b sched IH]; intros s; [apply app_nil_r|].
  destruct s as [|y s]; [reflexivity|]. cbn [interleave].
  destruct b; [rewrite IH|]; reflexivity.
Qed.

(** Where the next event of the server goroutine falls. *)
Lemma interleave_cons sched a y s :
  exists a1 a2 sched',
    a = (a1 ++ a2)%list
    /\ interleave sched a (y :: s) = (a1 ++ y :: interleave sched' a2 s)%list.
Proof.
  revert a. induction sched as [|b sched IH]; intros a.
  - exists [], a, []. split; reflexivity.
  - cbn [interleave]. destruct b.
    + exists [], a, sched. split; reflexivity.
    + destruct a as [|x a].
      * exists [], [], []. split; [reflexivity|].
        cbn [app interleave]. rewrite app_nil_r. reflexivity.
      * destruct (IH a) as (a1 & a2 & sched' & -> & ->).
        exists (x :: a1), a2, sched'. split; reflexivity.
Qed.

(** Conversely, the scheduler can let the others take any number of steps
    before the next event of the server goroutine. *)
Lemma interleave_at a1 a2 y s sched :
  interleave (repeat false (length a1) ++ true :: sched) (a1 ++ a2) (y :: s)
  = (a1 ++ y :: interleave sched a2 s)%list.
Proof.
  induction a1 as [|x a1 IH]; [reflexivity|].
  cbn [length repeat app interleave]. rewrite IH. reflexivity.
Qed.

Lemma filter_interleave_l (p : Event -> bool) sched a s :
  List.filter p s = [] -> List.filter p (interleave sched a s) = List.filter p a.
Proof.
  revert a s. induction sched as [|b sched IH]; intros a s Hs.
  - cbn [interleave]. rewrite List.filter_app, Hs. reflexivity.
  - cbn [interleave]. destruct s as [|y s]; [reflexivity|].
    cbn [List.filter] in Hs. destruct (p y) eqn:Hy; [discriminate Hs|].
    destruct b.
    + cbn [List.filter]. rewrite Hy. apply IH. exact Hs.
    + destruct a as [|x a].
      * cbn [List.filter]. rewrite Hy. exact Hs.
      * cbn [List.filter]. rewrite IH; [reflexivity|].
        cbn [List.filter]. rewrite Hy. exact Hs.
Qed.

Lemma filter_interleave_r (p : Event -> bool) sched a s :
  List.filter p a = [] -> List.filter p (interleave sched a s) = List.filter p s.
Proof.
  revert a s. induction sched as [|b sched IH]; intros a s Ha.
  - cbn [interleave]. rewrite List.filter_app, Ha. apply app_nil_r.
  - cbn [interleave]. destruct s as [|y s]; [exact Ha|].
    destruct b.
    + cbn [List.filter]. rewrite (IH _ _ Ha). reflexivity.
    + destruct a as [|x a]; [reflexivity|].
      cbn [List.filter] in Ha |- *. destruct (p x); [discriminate Ha|].
      apply IH. exact Ha.
Qed.

Lemma until_Exit_app t1 t2 :
  List.filter is_Exit t1 = [] -> until_Exit (t1 ++ t2) = (t1 ++ until_Exit t2)%list.
Proof.
  induction t1 as [|e t1 IH]; [reflexivity|]. intros H.
  destruct e; try discriminate H; cbn [app until_Exit]; f_equal; apply IH; exact H.
Qed.

Lemma until_Exit_all t : List.filter is_Exit t = [] -> until_Exit t = t.
Proof.
  intros H. rewrite <- (app_nil_r t) at 1. rewrite (until_Exit_app _ _ H).
  apply app_nil_r.
Qed.

Lemma exit_status_app t1 t2 :
  List.filter is_Exit t1 = [] -> exit_status (t1 ++ t2) = exit_status t2.
Proof.
  induction t1 as [|e t1 IH]; [reflexivity|]. intros H.
  destruct e; try discriminate H; cbn [app exit_status]; apply IH; exact H.
Qed.

Lemma exit_status_filter t :
  exit_status t = exit_status (List.filter is_Exit t).
Proof.
  induction t as [|e t IH]; [reflexivity|]. destruct e; try exact IH. reflexivity.
Qed.

Lemma exit_status_until t : exit_status (until_Exit t) = exit_status t.
Proof.
  induction t as [|e t IH]; [reflexivity|]. destruct e; try exact IH. reflexivity.
Qed.

Lemma filter_until_Exit (p : Event -> bool) t :
  (forall code, p (Exit code) = true) ->
  List.filter p (until_Exit t) = until_Exit (List.filter p t).
Proof.
  intros Hp. induction t as [|e t IH]; [reflexivity|].
  destruct e;
    try (cbn [until_Exit List.filter]; destruct (p _) eqn:E;
         [cbn [until_Exit]; f_equal; exact IH | exact IH]).
  cbn [until_Exit List.filter]. rewrite Hp. reflexivity.
Qed.

(** A run has one exit at most, and it is its last event. *)
Lemma until_Exit_exits t :
  List.filter is_Exit (until_Exit t)
  = match exit_status t with Some code => [Exit code] | None => [] end.
Proof.
  induction t as [|e t IH]; [reflexivity|]. destruct e; try exact IH. reflexivity.
Qed.

Lemma until_Exit_last t code :
  exit_status t = Some code -> last (until_Exit t) = Some (Exit code).
Proof.
  induction t as [|e t IH]; [discriminate|].
  destruct e; cbn [exit_status until_Exit]; intros H;
    try (injection H as <-; reflexivity);
    (specialize (IH H); destruct (until_Exit t); [discriminate IH | exact IH]).
Qed.

Lemma until_Exit_idem t : until_Exit (until_Exit t) = until_Exit t.
Proof.
  induction t as [|e t IH]; [reflexivity|].
  destruct e; cbn [until_Exit]; f_equal; exact IH.
Qed.

Lemma exit_status_app_first t1 t2 :
  exit_status (t1 ++ t2)
  = match exit_status t1 with Some code => Some code | None => exit_status t2 end.
Proof.
  induction t1 as [|e t1 IH]; [reflexivity|]. destruct e; try exact IH. reflexivity.
Qed.

Lemma exit_status_None t : exit_status t = None -> List.filter is_Exit t = [].
Proof.
  induction t as [|e t IH]; [reflexivity|]. destruct e; try exact IH. discriminate.
Qed.

Lemma filter_negb_all (p : Event -> bool) t :
  List.filter p t = [] -> List.filter (fun e => negb (p e)) t = t.
Proof.
  induction t as [|e t IH]; [reflexivity|]. cbn [List.filter].
  destruct (p e); [discriminate|]. intros H. cbn [negb]. f_equal. exact (IH H).
Qed.

Lemma filter_until_Exit_prefix (p : Event -> bool) t :
  exists rest, List.filter p t = (List.filter p (until_Exit t) ++ rest)%list.
Proof.
  induction t as [|e t [rest IH]]; [exists []; reflexivity|].
  destruct e; cbn [until_Exit List.filter];
    try (destruct (p _); [exists rest; cbn [app]; f_equal; exact IH | exists rest; exact IH]).
  destruct (p (Exit code)); [exists (List.filter p t) | exists (List.filter p t)]; reflexivity.
Qed.

(** ** The process: main, the server goroutine, the menu loop *)

Section Process.
Variable env : Env.

Lemma main_start_run :
  main_start env zero_Globals = (Return tt, started_Globals env, start_events env).
Proof. unfold main_start, startServer. rewrite distFS_eq. reflexivity. Qed.

Lemma serve_run g :
  serve env g =
    match ListenAndServe_err env ":8000" with
    | Some e => (Exited 1, g, [Listen ":8000"; Log e; Exit 1])
    | None => (Return tt, g, [Listen ":8000"])
    end.
Proof. unfold serve. destruct (ListenAndServe_err env ":8000"); reflexivity. Qed.

Lemma onReady_run g : onReady env g = (Return tt, g, ready_events env).
Proof. reflexivity. Qed.

Lemma openBrowser_run url g :
  exists t, openBrowser env url g = (Return tt, g, t).
Proof.
  unfold openBrowser, exec_Start.
  destruct (String.eqb (GOOS env) "linux");
    [|destruct (String.eqb (GOOS env) "windows");
      [|destruct (String.eqb (GOOS env) "darwin")]];
    cbv [bind emit ret log_Println];
    try destruct (Start_err env _); eauto.
Qed.

Lemma select_case_run a g :
  select_case env a g = (Return (negb (is_Quit a)), g, handler_events env g a).
Proof.
  unfold handler_events, trace_of.
  destruct a; unfold select_case.
  - destruct (openBrowser_run "http://localhost:8000" g) as [t Ht].
    cbv [bind emit ret]. rewrite Ht. reflexivity.
  - unfold exec_Run.
    destruct (String.eqb (GOOS env) "windows");
      [|destruct (String.eqb (GOOS env) "darwin")]; reflexivity.
  - unfold qrcode_WriteFile.
    destruct (openBrowser_run "lan_qr.png" g) as [t Ht].
    cbv [bind emit ret get_lanURL]. rewrite Ht. reflexivity.
  - reflexivity.
Qed.

Lemma menu_loop_run clicks g :
  menu_loop env clicks g =
    (if has_Quit clicks then Return tt else Blocked, g, menu_events env g clicks).
Proof.
  induction clicks as [|a rest IH]; [reflexivity|].
  cbn [menu_loop]. unfold bind. rewrite select_case_run.
  destruct a; cbn [negb is_Quit]; cbv iota; try (rewrite IH; reflexivity).
  reflexivity.
Qed.

Lemma main_run clicks :
  ((main env clicks ;; os_Exit 0) : M unit) zero_Globals
  = (if has_Quit clicks then Exited 0 else Blocked, started_Globals env,
     (start_events env ++ main_events env clicks)%list).
Proof.
  unfold main, systray_Run, bind.
  rewrite main_start_run, onReady_run, menu_loop_run.
  unfold main_events. destruct (has_Quit clicks); [reflexivity|].
  rewrite !app_nil_r. reflexivity.
Qed.

Lemma process_run clicks :
  process env clicks =
    (match exit_status (scheduled env clicks) with
     | Some code => Exited code
     | None => Blocked
     end, started_Globals env, (start_events env ++ scheduled env clicks)%list).
Proof.
  unfold process, run. rewrite main_run, serve_run.
  assert (Hs : trace_of
                 match ListenAndServe_err env ":8000" with
                 | Some e => (Exited 1, started_Globals env, [Listen ":8000"; Log e; Exit 1])
                 | None => (Return tt, started_Globals env, [Listen ":8000"])
                 end = server_events env).
  { unfold server_events. destruct (ListenAndServe_err env ":8000"); reflexivity. }
  cbv zeta. rewrite Hs. reflexivity.
Qed.

End Process.

Ltac handler_cases env :=
  unfold handler_events, trace_of, select_case, openBrowser,
    exec_Start, exec_Run, qrcode_WriteFile;
  destruct (String.eqb (GOOS env) "linux");
  destruct (String.eqb (GOOS env) "windows");
  destruct (String.eqb (GOOS env) "darwin");
  cbv [bind emit ret get_lanURL log_Println];
  repeat match goal with
         | |- context [Start_err env ?c] => destruct (Start_err env c)
         end.

Lemma handler_events_Recv env g a :
  exists t, handler_events env g a = Recv a :: t /\ List.filter is_Recv t = [].
Proof. destruct a; handler_cases env; eexists; split; reflexivity. Qed.

Lemma handler_events_no_Assign env g a : List.filter is_Assign (handler_events env g a) = [].
Proof. destruct a; handler_cases env; reflexivity. Qed.

Lemma handler_events_no_Exit env g a : List.filter is_Exit (handler_events env g a) = [].
Proof. destruct a; handler_cases env; reflexivity. Qed.

Lemma handler_events_logs env g a :
  List.filter is_Log (handler_events env g a) = omap (failure_logged env) (handler_events env g a).
Proof.
  destruct a; unfold handler_events, trace_of, select_case, openBrowser,
    exec_Start, exec_Run, qrcode_WriteFile;
  destruct (String.eqb (GOOS env) "linux");
  destruct (String.eqb (GOOS env) "windows");
  destruct (String.eqb (GOOS env) "darwin");
  cbv [bind emit ret get_lanURL log_Println];
  repeat match goal with
         | |- context [Start_err env ?c] => destruct (Start_err env c) eqn:?
         end;
  cbn; repeat match goal with H : Start_err _ _ = _ |- _ => rewrite H end; reflexivity.
Qed.

Lemma menu_events_no_Exit env g clicks :
  List.filter is_Exit (menu_events env g clicks) = [].
Proof.
  unfold menu_events. induction (handled clicks) as [|a l IH]; [reflexivity|].
  cbn [map concat]. rewrite List.filter_app, IH, handler_events_no_Exit. reflexivity.
Qed.


Lemma handler_events_no_Listen env g a :
  List.filter is_Listen (handler_events env g a) = [].
Proof. destruct a; handler_cases env; reflexivity. Qed.

Lemma menu_events_no_Listen env g clicks :
  List.filter is_Listen (menu_events env g clicks) = [].
Proof.
  unfold menu_events. induction (handled clicks) as [|a l IH]; [reflexivity|].
  cbn [map concat]. rewrite List.filter_app, IH, handler_events_no_Listen. reflexivity.
Qed.

(** *** The events after the launch of the server goroutine *)

Lemma main_events_no_Listen env clicks :
  List.filter is_Listen (main_events env clicks) = [].
Proof.
  unfold main_events, ready_events. cbn [app List.filter is_Listen].
  rewrite List.filter_app, menu_events_no_Listen.
  destruct (has_Quit clicks); reflexivity.
Qed.

Lemma main_events_exit_status env clicks :
  exit_status (main_events env clicks) = if has_Quit clicks then Some 0%Z else None.
Proof.
  unfold main_events, ready_events. cbn [app exit_status].
  rewrite exit_status_app by apply menu_events_no_Exit.
  destruct (has_Quit clicks); reflexivity.
Qed.

Lemma until_Exit_main_events env clicks :
  until_Exit (main_events env clicks) = main_events env clicks.
Proof.
  unfold main_events, ready_events. cbn [app until_Exit]. repeat f_equal.
  rewrite until_Exit_app by apply menu_events_no_Exit.
  destruct (has_Quit clicks); reflexivity.
Qed.

(** The port is asked for once at most. *)
Lemma scheduled_Listen env clicks :
  List.filter is_Listen (scheduled env clicks) = [Listen ":8000"]
  \/ List.filter is_Listen (scheduled env clicks) = [].
Proof.
  unfold scheduled.
  destruct (filter_until_Exit_prefix is_Listen
              (interleave (schedule env) (main_events env clicks) (server_events env)))
    as [rest Hp].
  rewrite (filter_interleave_r is_Listen) in Hp by apply main_events_no_Listen.
  assert (Hs : List.filter is_Listen (server_events env) = [Listen ":8000"])
    by (unfold server_events; destruct (ListenAndServe_err env ":8000"); reflexivity).
  rewrite Hs in Hp.
  destruct (List.filter is_Listen (until_Exit _)) as [|x [|y l]];
    [right; reflexivity | left; injection Hp as <- _; reflexivity | discriminate Hp].
Qed.

(** With the listener bound: the process ends when the user quits, and apart
    from the place of the bind the events are those of the other
    goroutines. *)
Lemma scheduled_bound env clicks :
  ListenAndServe_err env ":8000" = None ->
  exit_status (scheduled env clicks) = (if has_Quit clicks then Some 0%Z else None)
  /\ List.filter not_Listen (scheduled env clicks) = main_events env clicks.
Proof.
  intros Hb. unfold scheduled.
  assert (Hs : server_events env = [Listen ":8000"])
    by (unfold server_events; rewrite Hb; reflexivity).
  rewrite Hs. split.
  - rewrite exit_status_until, exit_status_filter.
    rewrite (filter_interleave_l is_Exit) by reflexivity.
    rewrite <- exit_status_filter. apply main_events_exit_status.
  - rewrite filter_until_Exit by reflexivity.
    rewrite (filter_interleave_l not_Listen) by reflexivity.
    unfold not_Listen. rewrite filter_negb_all by apply main_events_no_Listen.
    apply until_Exit_main_events.
Qed.

Lemma filter_filter_sub (p q : Event -> bool) t :
  (forall e, p e = true -> q e = true) ->
  List.filter p (List.filter q t) = List.filter p t.
Proof.
  intros H. induction t as [|e t IH]; [reflexivity|]. cbn [List.filter].
  destruct (q e) eqn:Hq.
  - cbn [List.filter]. rewrite IH. reflexivity.
  - destruct (p e) eqn:Hp; [rewrite (H _ Hp) in Hq; discriminate Hq | exact IH].
Qed.



(** When the scheduler lets the server goroutine go first. *)
Lemma scheduled_server_first env clicks :
  schedule env = [] ->
  scheduled env clicks = until_Exit (server_events env ++ main_events env clicks).
Proof. intros H. unfold scheduled. rewrite H. reflexivity. Qed.

(** With the port taken: the server goroutine gets to its exit, with what
    the other goroutines did in the meantime between its events, unless the
    user has quit before. *)
Lemma scheduled_port_taken env clicks e :
  ListenAndServe_err env ":8000" = Some e ->
  (exit_status (scheduled env clicks) = Some 1%Z
   /\ exists t1 t2 t3 rest,
        main_events env clicks = (t1 ++ t2 ++ t3 ++ rest)%list
        /\ List.filter is_Exit (t1 ++ t2 ++ t3) = []
        /\ scheduled env clicks
           = (t1 ++ Listen ":8000" :: t2 ++ Log e :: t3 ++ [Exit 1])%list)
  \/ (exit_status (scheduled env clicks) = Some 0%Z /\ has_Quit clicks = true).
Proof.
  intros He. unfold scheduled.
  assert (Hs : server_events env = [Listen ":8000"; Log e; Exit 1])
    by (unfold server_events; rewrite He; reflexivity).
  rewrite Hs. clear Hs.
  pose proof (main_events_exit_status env clicks) as Hm.
  destruct (interleave_cons (schedule env) (main_events env clicks)
              (Listen ":8000") [Log e; Exit 1]) as (t1 & r1 & s1 & E1 & ->).
  destruct (interleave_cons s1 r1 (Log e) [Exit 1]) as (t2 & r2 & s2 & -> & ->).
  destruct (interleave_cons s2 r2 (Exit 1) []) as (t3 & rest & s3 & -> & ->).
  rewrite interleave_nil_r. rewrite E1 in Hm |- *. clear E1.
  rewrite exit_status_until.
  assert (Hx : forall u,
    exit_status (t1 ++ Listen ":8000" :: t2 ++ Log e :: t3 ++ u)
    = exit_status ((t1 ++ t2 ++ t3) ++ u)).
  { intros u. rewrite !exit_status_app_first. cbn [exit_status].
    rewrite !exit_status_app_first. cbn [exit_status].
    rewrite !exit_status_app_first.
    destruct (exit_status t1), (exit_status t2), (exit_status t3); reflexivity. }
  rewrite Hx, exit_status_app_first.
  replace (t1 ++ t2 ++ t3 ++ rest)%list with ((t1 ++ t2 ++ t3) ++ rest)%list in Hm
    by (rewrite <- !app_assoc; reflexivity).
  rewrite exit_status_app_first in Hm.
  destruct (exit_status (t1 ++ t2 ++ t3)) as [code|] eqn:Hp.
  - right. destruct (has_Quit clicks); [|discriminate Hm].
    injection Hm as ->. split; reflexivity.
  - left. split; [reflexivity|].
    exists t1, t2, t3, rest. split; [reflexivity|].
    pose proof (exit_status_None _ Hp) as Hn. split; [exact Hn|].
    rewrite !List.filter_app in Hn.
    apply app_eq_nil in Hn as [H1 Hn]. apply app_eq_nil in Hn as [H2 H3].
    rewrite (until_Exit_app _ _ H1). cbn [until_Exit].
    rewrite (until_Exit_app _ _ H2). cbn [until_Exit].
    rewrite (until_Exit_app _ _ H3). reflexivity.
Qed.

(** C4, as amended.  When [http.ListenAndServe] cannot bind the port, the
    server goroutine logs the error it returns and ends the process with
    status 1, unless the user has quit first: the process exits with status 1,
    or with status 0 when a [Quit] was handled before the goroutine got to its
    exit, and it always exits.  In a run that ends with status 1 the bind, the
    log line with the error and the exit come in this order, the exit last;
    between them only steps of the tray and of the menu handlers can fall.
    The port is asked for once at most.  When the scheduler lets the server
    goroutine go first, the run is the launch, the bind, the log line and the
    exit, whatever the user clicks. *)
Theorem bind_failure_is_fatal (env : Env) (clicks : list MenuAction) (e : string) :
  ListenAndServe_err env ":8000" = Some e ->
  (outcome_of (process env clicks) = Exited 1
   \/ (outcome_of (process env clicks) = Exited 0 /\ In Quit clicks))
  /\ (~ In Quit clicks -> outcome_of (process env clicks) = Exited 1)
  /\ (outcome_of (process env clicks) = Exited 1 ->
      exists t1 t2 t3 rest,
        main_events env clicks = (t1 ++ t2 ++ t3 ++ rest)%list
        /\ trace_of (process env clicks)
           = (start_events env
                ++ t1 ++ Listen ":8000" :: t2 ++ Log e :: t3 ++ [Exit 1])%list)
  /\ (List.filter is_Listen (trace_of (process env clicks)) = [Listen ":8000"]
      \/ List.filter is_Listen (trace_of (process env clicks)) = [])
  /\ (schedule env = [] ->
      outcome_of (process env clicks) = Exited 1
      /\ trace_of (process env clicks)
         = (start_events env ++ [Listen ":8000"; Log e; Exit 1])%list).
Proof.
  intros He. rewrite process_run. cbn [outcome_of trace_of fst snd].
  assert (Hq : has_Quit clicks = true -> In Quit clicks).
  { unfold has_Quit. rewrite existsb_exists. intros (a & Ha & Hq).
    destruct a; try discriminate Hq. exact Ha. }
  assert (Hnq : ~ In Quit clicks -> has_Quit clicks = false).
  { intros Hn. destruct (has_Quit clicks); [destruct (Hn (Hq eq_refl)) | reflexivity]. }
  split; [|split; [|split; [|split]]].
  - destruct (scheduled_port_taken env clicks e He) as [[-> _] | [-> Hh]];
      [left; reflexivity | right; split; [reflexivity | exact (Hq Hh)]].
  - intros Hn.
    destruct (scheduled_port_taken env clicks e He) as [[-> _] | [_ Hh]];
      [reflexivity | rewrite (Hnq Hn) in Hh; discriminate Hh].
  - destruct (scheduled_port_taken env clicks e He)
      as [[_ (t1 & t2 & t3 & rest & Hm & _ & ->)] | [-> _]];
      [|discriminate].
    intros _. exists t1, t2, t3, rest. split; [exact Hm | reflexivity].
  - unfold start_events. cbn [app List.filter is_Listen]. apply scheduled_Listen.
  - intros Hs. rewrite (scheduled_server_first env clicks Hs).
    unfold server_events. rewrite He. split; reflexivity.
Qed.

Lemma bind_failure_is_fatal_witness :
  outcome_of (process (machine_port_taken "linux") [OpenApp; Quit]) = Exited 1
  /\ trace_of (process (machine_port_taken "linux") [OpenApp; Quit])
     = (start_events (machine_port_taken "linux")
          ++ [Listen ":8000";
              Log "listen tcp :8000: bind: address already in use"; Exit 1])%list.
Proof.
  apply (bind_failure_is_fatal (machine_port_taken "linux") [OpenApp; Quit]
           "listen tcp :8000: bind: address already in use");
    reflexivity.
Defined.

(** C4 as stated fails when the user quits before the server goroutine has
    got to its [log.Fatal]: with the port taken, on a machine whose scheduler
    lets the tray come up and the click on Quit be handled first, the process
    exits with status 0 and nothing is logged, whether the goroutine has not
    run at all by then or has had its bind refused already. *)
Lemma Quit_before_the_server_goroutine_exits :
  let late := with_schedule (repeat false 11) (machine_port_taken "linux") in
  let refused := with_schedule (true :: repeat false 11) (machine_port_taken "linux") in
  ListenAndServe_err late ":8000" <> None
  /\ outcome_of (process late [Quit]) = Exited 0
  /\ List.filter is_Log (trace_of (process late [Quit])) = []
  /\ List.filter is_Listen (trace_of (process late [Quit])) = []
  /\ outcome_of (process refused [Quit]) = Exited 0
  /\ List.filter is_Log (trace_of (process refused [Quit])) = []
  /\ List.filter is_Listen (trace_of (process refused [Quit])) = [Listen ":8000"].
Proof. vm_compute. repeat split. discriminate. Qed.

Lemma handled_prefix clicks : exists rest, clicks = (handled clicks ++ rest)%list.
Proof.
  induction clicks as [|a clicks [rest IH]]; [exists []; reflexivity|].
  destruct a; try (exists rest; cbn [handled app]; congruence).
  exists clicks. reflexivity.
Qed.

Lemma handled_all clicks :
  forallb (fun a => negb (is_Quit a)) (removelast clicks) = true ->
  handled clicks = clicks.
Proof.
  induction clicks as [|a clicks IH]; [reflexivity|].
  destruct clicks as [|b clicks]; [destruct a; reflexivity|].
  change (removelast (a :: b :: clicks)) with (a :: removelast (b :: clicks)).
  cbn [forallb]. intros H. apply andb_prop in H as [Ha H].
  destruct a; try discriminate Ha; cbn [handled]; f_equal; exact (IH H).
Qed.

Lemma menu_events_Recv env g clicks :
  List.filter is_Recv (menu_events env g clicks) = map Recv (handled clicks).
Proof.
  unfold menu_events. induction (handled clicks) as [|a l IH]; [reflexivity|].
  cbn [map concat]. rewrite List.filter_app, IH.
  destruct (handler_events_Recv env g a) as (t & -> & Ht).
  cbn [List.filter is_Recv]. rewrite Ht. reflexivity.
Qed.

(** C5, as amended.  The menu loop handles the dispatched actions up to and
    including the first [Quit]: its events are those of the handlers of these
    actions, each handler's events in one piece that begins with the receive
    of its action, in the order of dispatch.  A sequence of N actions with no
    [Quit] before the last one therefore gets exactly N handler runs; actions
    that follow a [Quit] get none. *)
Theorem menu_loop_dispatch (env : Env) (g : Globals) (clicks : list MenuAction) :
  trace_of (menu_loop env clicks g)
    = concat (map (handler_events env g) (handled clicks))
  /\ List.filter is_Recv (trace_of (menu_loop env clicks g)) = map Recv (handled clicks)
  /\ (forall a, exists t,
         handler_events env g a = Recv a :: t /\ List.filter is_Recv t = [])
  /\ (exists rest, clicks = (handled clicks ++ rest)%list)
  /\ (forallb (fun a => negb (is_Quit a)) (removelast clicks) = true ->
      handled clicks = clicks
      /\ length (List.filter is_Recv (trace_of (menu_loop env clicks g))) = length clicks).
Proof.
  rewrite menu_loop_run. cbn [trace_of snd].
  split; [reflexivity|]. split; [apply menu_events_Recv|].
  split; [intros a; apply handler_events_Recv|].
  split; [apply handled_prefix|].
  intros H. split; [exact (handled_all _ H)|].
  rewrite menu_events_Recv, length_map, (handled_all _ H). reflexivity.
Qed.

(** C5 as stated fails on two actions of which the first is [Quit]: one
    handler runs, not two. *)
Lemma menu_loop_stops_at_Quit :
  let env := machine "linux" loopback_and_lan dist_index in
  List.filter is_Recv (trace_of (menu_loop env [Quit; OpenApp] (started_Globals env)))
    = [Recv Quit]
  /\ length [Quit; OpenApp] = 2.
Proof. split; reflexivity. Qed.



(** ** PlatformBridge: failures of the external calls *)

(** C7, as amended.  A handler never ends the service: it leaves the globals
    as they are, causes no exit, and the loop goes round again (except after
    [Quit]).  It retries nothing: the launches it makes are the same whether
    they fail or not, at most two of them.  Of the failures, only that of
    starting the opener is logged ([openBrowser]'s "Failed to open browser"):
    the log lines of a handler are exactly those of its failed [Start] calls,
    so a failed clipboard command and a failed QR file write leave no line. *)
Theorem handler_failures_are_not_fatal (env : Env) (g : Globals) (a : MenuAction) :
  select_case env a g = (Return (negb (is_Quit a)), g, handler_events env g a)
  /\ List.filter is_Exit (handler_events env g a) = []
  /\ List.filter is_Log (handler_events env g a)
     = omap (failure_logged env) (handler_events env g a)
  /\ (forall env', GOOS env' = GOOS env ->
        List.filter is_launch (handler_events env' g a)
        = List.filter is_launch (handler_events env g a))
  /\ length (List.filter is_launch (handler_events env g a)) <= 2.
Proof.
  split; [apply select_case_run|].
  split; [apply handler_events_no_Exit|].
  split; [apply handler_events_logs|].
  split.
  - intros env' Hos. destruct a;
      unfold handler_events, trace_of, select_case, openBrowser,
        exec_Start, exec_Run, qrcode_WriteFile;
      rewrite ?Hos;
      destruct (String.eqb (GOOS env) "linux");
      destruct (String.eqb (GOOS env) "windows");
      destruct (String.eqb (GOOS env) "darwin");
      cbv [bind emit ret get_lanURL log_Println];
      repeat match goal with
             | |- context [Start_err ?e ?c] => destruct (Start_err e c)
             end;
      reflexivity.
  - destruct a; handler_cases env; cbn; lia.
Qed.

(** C7 as stated fails for the clipboard command and for the QR file write:
    on a machine where both fail, the handlers of [CopyURL] and of [ShowQR]
    write no log line. *)
Lemma clipboard_and_QR_failures_are_not_logged :
  let env := machine_failing "linux" in
  let g := started_Globals env in
  List.filter (failed env) (handler_events env g CopyURL)
    = [ExecRun {| Args := ["xclip"; "-selection"; "clipboard"];
                  Stdin := Some "http://192.168.1.5:8000" |}]
  /\ List.filter is_Log (handler_events env g CopyURL) = []
  /\ List.filter (failed env) (handler_events env g ShowQR)
     = [QRWriteFile "http://192.168.1.5:8000" 256 "lan_qr.png"]
  /\ List.filter is_Log (handler_events env g ShowQR) = [].
Proof. repeat split; reflexivity. Qed.

(** *** The clipboard *)

Lemma HasSuffix_app u suffix : strings.HasSuffix (u +:+ suffix) suffix = true.
Proof.
  induction u as [|a u IH].
  - change ("" +:+ suffix) with suffix.
    destruct suffix; [reflexivity|].
    cbn [strings.HasSuffix]. rewrite String.eqb_refl. reflexivity.
  - change (String a u +:+ suffix) with (String a (u +:+ suffix)).
    cbn [strings.HasSuffix]. rewrite IH. apply orb_true_r.
Qed.

Lemma length_app_string u v :
  String.length (u +:+ v) = String.length u + String.length v.
Proof.
  induction u as [|a u IH]; [reflexivity|].
  change (String a u +:+ v) with (String a (u +:+ v)).
  cbn [String.length]. rewrite IH. reflexivity.
Qed.

Lemma substring_0_app u v : String.substring 0 (String.length u) (u +:+ v) = u.
Proof.
  induction u as [|a u IH]; [destruct v; reflexivity|].
  change (String a u +:+ v) with (String a (u +:+ v)).
  cbn [String.length String.substring]. rewrite IH. reflexivity.
Qed.

Lemma TrimSuffix_app u suffix : strings.TrimSuffix (u +:+ suffix) suffix = u.
Proof.
  unfold strings.TrimSuffix. rewrite HasSuffix_app, length_app_string.
  replace (String.length u + String.length suffix - String.length suffix)
    with (String.length u) by lia.
  apply substring_0_app.
Qed.

Lemma HasPrefix_app prefix s : strings.HasPrefix (prefix +:+ s) prefix = true.
Proof.
  induction prefix as [|a prefix IH]; [reflexivity|].
  change (String a prefix +:+ s) with (String a (prefix +:+ s)).
  cbn [strings.HasPrefix]. rewrite Ascii.eqb_refl, IH. reflexivity.
Qed.

Lemma TrimPrefix_app prefix s : strings.TrimPrefix (prefix +:+ s) prefix = s.
Proof.
  unfold strings.TrimPrefix. rewrite HasPrefix_app.
  induction prefix as [|a prefix IH].
  - change ("" +:+ s) with s. cbn [String.length].
    rewrite Nat.sub_0_r. apply substring_0_length.
  - change (String a prefix +:+ s) with (String a (prefix +:+ s)).
    cbn [String.length String.substring Nat.sub]. exact IH.
Qed.

Lemma clipboard_after_echo url :
  clipboard_after (Command "cmd" ["/c"; "echo " +:+ url +:+ "| clip"])
  = Some (url +:+ CRLF).
Proof.
  unfold clipboard_after, Command. cbn [Args].
  cbv beta iota.
  rewrite HasPrefix_app, TrimPrefix_app, TrimSuffix_app.
  change ("echo " +:+ url +:+ "| clip") with (("echo " +:+ url) +:+ "| clip").
  rewrite HasSuffix_app. reflexivity.
Qed.

(** What [CopyURL] runs, and what that leaves on the clipboard: the value of
    [lanURL] on macOS and elsewhere, the value followed by CR LF on Windows. *)
Lemma CopyURL_clipboard (env : Env) (g : Globals) :
  exists c,
    handler_events env g CopyURL = [Recv CopyURL; ExecRun c]
    /\ clipboard_after c
       = Some (if String.eqb (GOOS env) "windows" then lanURL g +:+ CRLF else lanURL g).
Proof.
  unfold handler_events, trace_of, select_case, exec_Run.
  destruct (String.eqb (GOOS env) "windows").
  - eexists. split; [reflexivity|]. apply clipboard_after_echo.
  - destruct (String.eqb (GOOS env) "darwin"); eexists; split; reflexivity.
Qed.

(** C8 fails on Windows.  At the LAN address 192.168.1.5 the handler of
    [CopyURL] runs [cmd /c "echo http://192.168.1.5:8000| clip"], which leaves
    the URL followed by a carriage return and a line feed on the clipboard;
    on macOS and Linux the clipboard holds the URL itself. *)
Theorem CopyURL_on_windows_appends_CRLF :
  let url := "http://192.168.1.5:8000" in
  let on goos := machine goos loopback_and_lan dist_index in
  let copied goos :=
    (fun e => match e with ExecRun c => clipboard_after c | _ => None end)
      <$> last (trace_of (process (on goos) [CopyURL])) in
  lanURL (globals_of (process (on "windows") [CopyURL])) = url
  /\ last (trace_of (process (on "windows") [CopyURL]))
     = Some (ExecRun (Command "cmd" ["/c"; "echo http://192.168.1.5:8000| clip"]))
  /\ copied "windows" = Some (Some (url +:+ CRLF))
  /\ copied "darwin" = Some (Some url)
  /\ copied "linux" = Some (Some url)
  /\ url +:+ CRLF <> url.
Proof. vm_compute. repeat split; discriminate. Qed.

Lemma Sprintf_url_empty_host : Sprintf_url "" 8000 = "http://:8000".
Proof. reflexivity. Qed.

(** C9, as amended.  When no interface address qualifies, [lanURL] is
    ["http://:8000"], and a click on Copy LAN URL does what it always does: it
    runs the clipboard command once, on that host-less text, which is then
    what the clipboard holds (followed by CR LF on Windows).  Nothing is
    logged and nothing else tells the user. *)
Theorem CopyURL_with_empty_host (env : Env) (clicks : list MenuAction) :
  getLANIP (InterfaceAddrs env) = "" ->
  lanURL (globals_of (process env clicks)) = "http://:8000"
  /\ exists c,
       handler_events env (globals_of (process env clicks)) CopyURL
         = [Recv CopyURL; ExecRun c]
       /\ clipboard_after c
          = Some (if String.eqb (GOOS env) "windows"
                  then "http://:8000" +:+ CRLF else "http://:8000")
       /\ List.filter is_Log
            (handler_events env (globals_of (process env clicks)) CopyURL) = [].
Proof.
  intros Hip.
  assert (Hg : globals_of (process env clicks) = started_Globals env).
  { rewrite process_run. destruct (ListenAndServe_err env ":8000"); reflexivity. }
  assert (Hu : lanURL (started_Globals env) = "http://:8000").
  { unfold started_Globals. cbn [lanURL]. rewrite Hip. reflexivity. }
  rewrite Hg. split; [exact Hu|].
  destruct (CopyURL_clipboard env (started_Globals env)) as (c & Hc & Hclip).
  exists c. rewrite Hc. rewrite Hu in Hclip.
  split; [reflexivity|]. split; [exact Hclip | reflexivity].
Qed.

Lemma CopyURL_with_empty_host_witness :
  lanURL (globals_of (process (machine "linux" [] dist_index) [CopyURL])) = "http://:8000".
Proof.
  apply (CopyURL_with_empty_host (machine "linux" [] dist_index) [CopyURL]).
  reflexivity.
Defined.

(** C9 as stated fails: on a machine without a network interface the click
    on Copy LAN URL does something, it runs [xclip] on ["http://:8000"]. *)
Lemma CopyURL_with_empty_host_runs_xclip :
  let env := machine "linux" [] dist_index in
  getLANIP (InterfaceAddrs env) = ""
  /\ List.filter is_launch (trace_of (process env [CopyURL]))
     = [ExecRun {| Args := ["xclip"; "-selection"; "clipboard"];
                   Stdin := Some "http://:8000" |}]
  /\ List.filter is_launch (trace_of (process env [CopyURL])) <> [].
Proof. vm_compute. repeat split; discriminate. Qed.

(** ** The global [lanURL] *)

Lemma menu_events_no_Assign env g clicks :
  List.filter is_Assign (menu_events env g clicks) = [].
Proof.
  unfold menu_events. induction (handled clicks) as [|a l IH]; [reflexivity|].
  cbn [map concat]. rewrite List.filter_app, IH, handler_events_no_Assign. reflexivity.
Qed.

Lemma scheduled_no_Assign env clicks :
  List.filter is_Assign (scheduled env clicks) = [].
Proof.
  unfold scheduled.
  destruct (filter_until_Exit_prefix is_Assign
              (interleave (schedule env) (main_events env clicks) (server_events env)))
    as [rest Hp].
  rewrite (filter_interleave_l is_Assign) in Hp
    by (unfold server_events; destruct (ListenAndServe_err env ":8000"); reflexivity).
  assert (Hm : List.filter is_Assign (main_events env clicks) = []).
  { unfold main_events, ready_events. cbn [app List.filter is_Assign].
    rewrite List.filter_app, menu_events_no_Assign.
    destruct (has_Quit clicks); reflexivity. }
  rewrite Hm in Hp. symmetry in Hp. apply app_eq_nil in Hp as [Hp _]. exact Hp.
Qed.

(** C10. [lanURL] is written once, by [main], as the first thing the process
    does: its first event is the assignment, before the launch of the server
    goroutine and of the menu goroutine, and no later event is an assignment.
    No handler and no run of the menu loop changes the variable, so every
    handler reads the value [main] gave it, and the events of the menu loop
    are those of handlers run with that value.  This holds under every
    scheduler: with the listener bound only the bind of the server goroutine
    can fall between the events of the menu loop, and it comes before them
    when the server goroutine goes first. *)
Theorem lanURL_assigned_once (env : Env) (clicks : list MenuAction) :
  let url := Sprintf_url (getLANIP (InterfaceAddrs env)) 8000 in
  (exists rest,
      trace_of (process env clicks) = Assign_lanURL url :: rest
      /\ List.filter is_Assign rest = []
      /\ In (Go go_serve) rest)
  /\ lanURL (globals_of (process env clicks)) = url
  /\ (forall a g, lanURL (globals_of (select_case env a g)) = lanURL g)
  /\ (forall later g, lanURL (globals_of (menu_loop env later g)) = lanURL g)
  /\ (forall later g,
        trace_of (menu_loop env later g)
        = concat (map (fun a => trace_of (select_case env a g)) (handled later)))
  /\ (ListenAndServe_err env ":8000" = None ->
      (exists before after,
        List.filter not_Listen (trace_of (process env clicks))
        = (Assign_lanURL url :: before
             ++ Go go_menu :: menu_events env (started_Globals env) clicks ++ after)%list
        /\ lanURL (started_Globals env) = url)
      /\ (schedule env = [] ->
          exists before after,
            trace_of (process env clicks)
            = (Assign_lanURL url :: before
                 ++ Go go_menu :: menu_events env (started_Globals env) clicks ++ after)%list
            /\ lanURL (started_Globals env) = url)).
Proof.
  intros url. rewrite process_run. cbn [outcome_of globals_of trace_of fst snd].
  split; [|split; [|split; [|split; [|split]]]].
  - eexists. split; [reflexivity|]. split; [|cbn; tauto].
    cbn [List.filter is_Assign]. apply scheduled_no_Assign.
  - reflexivity.
  - intros a g. rewrite select_case_run. reflexivity.
  - intros later g. rewrite menu_loop_run. reflexivity.
  - intros later g. rewrite menu_loop_run. reflexivity.
  - intros Hb. split.
    + destruct (scheduled_bound env clicks Hb) as [_ Hn].
      rewrite List.filter_app, Hn.
      exists ([Println ("Serving at: " +:+ url); Go go_serve]
                ++ removelast (ready_events env))%list,
             (if has_Quit clicks then [Exit 0] else []).
      split; reflexivity.
    + intros Hs. rewrite (scheduled_server_first env clicks Hs).
      unfold server_events. rewrite Hb. cbn [app until_Exit].
      rewrite until_Exit_main_events.
      exists ([Println ("Serving at: " +:+ url); Go go_serve; Listen ":8000"]
                ++ removelast (ready_events env))%list,
             (if has_Quit clicks then [Exit 0] else []).
      split; reflexivity.
Qed.

(** * Further properties *)

(** ** NetworkLocator *)

Lemma To4_four ip ip4 :
  net.To4 ip = Some ip4 -> exists a b c d, ip4 = [a; b; c; d].
Proof.
  intros H. apply To4_length in H.
  destruct ip4 as [|a [|b [|c [|d [|? ?]]]]]; try discriminate H. eauto.
Qed.

Lemma getLANIP_range_shape addrs :
  getLANIP_range addrs = ""
  \/ exists a b c d, a <> x7f /\ getLANIP_range addrs = dotted a b c d.
Proof.
  induction addrs as [|x addrs IH]; [left; reflexivity|].
  cbn [getLANIP_range]. destruct x as [ip m|ip z]; [|exact IH].
  destruct (net.IsLoopback ip) eqn:Hl; cbn [negb]; [exact IH|].
  destruct (net.To4 ip) as [ip4|] eqn:H4; [|exact IH].
  right. destruct (To4_four _ _ H4) as (a & b & c & d & ->).
  exists a, b, c, d. split.
  - unfold net.IsLoopback in Hl. rewrite H4 in Hl. cbn in Hl.
    intros ->. discriminate Hl.
  - reflexivity.
Qed.

(** X4. [getLANIP] never gives a loopback host: its result is empty, or the
    dotted decimal text of four bytes of which the first is not 127. *)
Theorem getLANIP_never_loopback (r : result string (list net.Addr)) :
  getLANIP r = ""
  \/ exists a b c d, a <> x7f /\ getLANIP r = dotted a b c d.
Proof. destruct r as [addrs|e]; [apply getLANIP_range_shape | left; reflexivity]. Qed.

(** X5. [getLANIP] over two lists of interface addresses, one after the
    other: the host found in the first list, and the host of the second list
    when the first gives none. *)
Theorem getLANIP_app (l1 l2 : list net.Addr) :
  getLANIP (Ok (l1 ++ l2)%list)
  = if String.eqb (getLANIP (Ok l1)) "" then getLANIP (Ok l2) else getLANIP (Ok l1).
Proof.
  cbn [getLANIP]. induction l1 as [|x l1 IH]; [reflexivity|].
  cbn [app getLANIP_range]. destruct x as [ip m|ip z]; [|exact IH].
  destruct (net.IsLoopback ip); cbn [negb]; [exact IH|].
  destruct (net.To4 ip) as [ip4|] eqn:H4; [|exact IH].
  pose proof (String_nonempty _ _ H4) as Hne.
  rewrite <- (String_To4 _ _ H4) in Hne.
  destruct (String.eqb_spec (net.String ip4) ""); [congruence | reflexivity].
Qed.

(** X6. An IPv4 address gives the same host in its 16-byte form (as
    [net.IPv4] builds it) and in its 4-byte form, whatever the mask: the
    dotted decimal text of its four bytes, unless the first is 127. *)
Theorem getLANIP_mapped_form (a b c d : byte) (m m' : list byte) (rest : list net.Addr) :
  getLANIP (Ok (net.IPNet (net.IPv4 a b c d) m :: rest))
  = getLANIP (Ok (net.IPNet [a; b; c; d] m' :: rest))
  /\ (a <> x7f -> getLANIP (Ok (net.IPNet (net.IPv4 a b c d) m :: rest)) = dotted a b c d).
Proof.
  cbn [getLANIP getLANIP_range].
  change (net.IsLoopback (net.IPv4 a b c d)) with (Byte.eqb a x7f).
  change (net.IsLoopback [a; b; c; d]) with (Byte.eqb a x7f).
  change (net.To4 (net.IPv4 a b c d)) with (Some [a; b; c; d]).
  change (net.To4 [a; b; c; d]) with (Some [a; b; c; d]).
  split; [reflexivity|].
  intros Ha. destruct (Byte.eqb a x7f) eqn:E; [|reflexivity].
  apply Byte.byte_dec_bl in E. congruence.
Qed.

(** ** The menu handlers and the process *)

(** X7. On an operating system other than Linux, Windows and macOS,
    [openBrowser] starts nothing and logs nothing: Open App has no effect,
    Show QR Code writes the image and opens no viewer, and Copy LAN URL runs
    [xclip] as on Linux. *)
Theorem unsupported_os_handlers (env : Env) (g : Globals) :
  supported (GOOS env) = false ->
  (forall url, openBrowser env url g = (Return tt, g, []))
  /\ handler_events env g OpenApp = [Recv OpenApp]
  /\ handler_events env g ShowQR = [Recv ShowQR; QRWriteFile (lanURL g) 256 "lan_qr.png"]
  /\ handler_events env g CopyURL
     = [Recv CopyURL;
        ExecRun (with_Stdin (Command "xclip" ["-selection"; "clipboard"]) (lanURL g))].
Proof.
  unfold supported. intros H.
  apply orb_false_elim in H as [H Hd]. apply orb_false_elim in H as [Hl Hw].
  unfold handler_events, trace_of, select_case, openBrowser, exec_Run, qrcode_WriteFile.
  rewrite Hl, Hw, Hd. repeat split; reflexivity.
Qed.

Lemma unsupported_os_handlers_witness :
  handler_events (machine "freebsd" loopback_and_lan dist_index)
    (started_Globals (machine "freebsd" loopback_and_lan dist_index)) OpenApp
  = [Recv OpenApp].
Proof.
  apply (unsupported_os_handlers (machine "freebsd" loopback_and_lan dist_index)).
  reflexivity.
Defined.

Lemma openBrowser_started (env : Env) (url : string) (g : Globals) :
  supported (GOOS env) = true ->
  exists c,
    last (Args c) = Some url /\ Stdin c = None
    /\ openBrowser env url g
       = (Return tt, g,
          ExecStart c
            :: match Start_err env c with
               | Some e => [Log ("Failed to open browser: " +:+ e)]
               | None => []
               end).
Proof.
  unfold supported, openBrowser, exec_Start.
  destruct (String.eqb (GOOS env) "linux");
    [exists (Command "xdg-open" [url])
    |destruct (String.eqb (GOOS env) "windows");
      [exists (Command "rundll32" ["url.dll,FileProtocolHandler"; url])
      |destruct (String.eqb (GOOS env) "darwin");
        [exists (Command "open" [url]) | discriminate]]];
    (split; [reflexivity|]); (split; [reflexivity|]);
    cbv [bind emit ret log_Println];
    match goal with |- context [Start_err env ?c] => destruct (Start_err env c) end;
    reflexivity.
Qed.

(** X8. On Linux, Windows and macOS [openBrowser] starts one process, with
    the URL as its last argument and nothing on its standard input, does not
    wait for it, and writes one log line exactly when the start fails. *)
Theorem openBrowser_supported (env : Env) (url : string) (g : Globals) :
  supported (GOOS env) = true ->
  exists c,
    last (Args c) = Some url /\ Stdin c = None
    /\ openBrowser env url g
       = (Return tt, g,
          ExecStart c
            :: match Start_err env c with
               | Some e => [Log ("Failed to open browser: " +:+ e)]
               | None => []
               end)
    /\ List.filter is_ExecStart (trace_of (openBrowser env url g)) = [ExecStart c]
    /\ List.filter is_Exit (trace_of (openBrowser env url g)) = [].
Proof.
  intros Hs. destruct (openBrowser_started env url g Hs) as (c & Hc & Hi & Ho).
  exists c. split; [exact Hc|]. split; [exact Hi|]. split; [exact Ho|].
  rewrite Ho. cbn [trace_of snd]. destruct (Start_err env c); split; reflexivity.
Qed.

Lemma openBrowser_supported_witness :
  exists c,
    last (Args c) = Some "lan_qr.png" /\ Stdin c = None
    /\ openBrowser (machine "darwin" loopback_and_lan dist_index) "lan_qr.png" zero_Globals
       = (Return tt, zero_Globals,
          ExecStart c
            :: match Start_err (machine "darwin" loopback_and_lan dist_index) c with
               | Some e => [Log ("Failed to open browser: " +:+ e)]
               | None => []
               end)
    /\ List.filter is_ExecStart
         (trace_of (openBrowser (machine "darwin" loopback_and_lan dist_index)
                      "lan_qr.png" zero_Globals)) = [ExecStart c]
    /\ List.filter is_Exit
         (trace_of (openBrowser (machine "darwin" loopback_and_lan dist_index)
                      "lan_qr.png" zero_Globals)) = [].
Proof.
  apply (openBrowser_supported (machine "darwin" loopback_and_lan dist_index)).
  reflexivity.
Defined.

(** X9. Show QR Code writes [lan_qr.png] from [lanURL] at 256 pixels and
    then opens the viewer on that file, whether or not the write succeeded:
    the result of [qrcode.WriteFile] has no influence on what follows. *)
Theorem ShowQR_opens_viewer_whatever_the_write (env : Env) (g : Globals) :
  supported (GOOS env) = true ->
  exists c,
    last (Args c) = Some "lan_qr.png"
    /\ handler_events env g ShowQR
       = Recv ShowQR :: QRWriteFile (lanURL g) 256 "lan_qr.png" :: ExecStart c
           :: match Start_err env c with
              | Some e => [Log ("Failed to open browser: " +:+ e)]
              | None => []
              end.
Proof.
  intros Hs. destruct (openBrowser_started env "lan_qr.png" g Hs) as (c & Hc & _ & Ho).
  exists c. split; [exact Hc|].
  unfold handler_events, trace_of, select_case, qrcode_WriteFile.
  cbv [bind emit ret get_lanURL]. rewrite Ho.
  destruct (Start_err env c); reflexivity.
Qed.

Lemma ShowQR_opens_viewer_whatever_the_write_witness :
  exists c,
    last (Args c) = Some "lan_qr.png"
    /\ handler_events (machine_failing "linux") zero_Globals ShowQR
       = Recv ShowQR :: QRWriteFile "" 256 "lan_qr.png" :: ExecStart c
           :: match Start_err (machine_failing "linux") c with
              | Some e => [Log ("Failed to open browser: " +:+ e)]
              | None => []
              end.
Proof.
  apply (ShowQR_opens_viewer_whatever_the_write (machine_failing "linux") zero_Globals).
  reflexivity.
Defined.

Lemma has_Quit_In clicks : has_Quit clicks = true <-> In Quit clicks.
Proof.
  unfold has_Quit. rewrite existsb_exists. split.
  - intros (a & Ha & Hq). destruct a; try discriminate Hq. exact Ha.
  - intros H. exists Quit. split; [exact H | reflexivity].
Qed.

(** X10. The exit status of the process.  With the listener bound: 0 once a
    [Quit] is among the clicks, and no exit otherwise (the process keeps
    waiting for clicks).  With the port taken: 1, or 0 when a [Quit] is among
    the clicks and is handled before the server goroutine gets to its exit;
    always 1 when the server goroutine goes first.  So status 0 takes a
    [Quit], status 1 a refused bind, and the process stays exactly when the
    listener is bound and the user never quits.  A run has at most one exit,
    and it is its last event. *)
Theorem process_exit_status (env : Env) (clicks : list MenuAction) :
  (ListenAndServe_err env ":8000" = None ->
   outcome_of (process env clicks) = if has_Quit clicks then Exited 0 else Blocked)
  /\ (ListenAndServe_err env ":8000" <> None ->
      (outcome_of (process env clicks) = Exited 1
       \/ (outcome_of (process env clicks) = Exited 0 /\ In Quit clicks))
      /\ (schedule env = [] -> outcome_of (process env clicks) = Exited 1))
  /\ (outcome_of (process env clicks) = Exited 0 -> In Quit clicks)
  /\ (outcome_of (process env clicks) = Exited 1 ->
      ListenAndServe_err env ":8000" <> None)
  /\ (outcome_of (process env clicks) = Blocked
      <-> ListenAndServe_err env ":8000" = None /\ ~ In Quit clicks)
  /\ List.filter is_Exit (trace_of (process env clicks))
     = match outcome_of (process env clicks) with
       | Exited code => [Exit code]
       | _ => []
       end
  /\ (forall code, outcome_of (process env clicks) = Exited code ->
        last (trace_of (process env clicks)) = Some (Exit code)).
Proof.
  rewrite process_run. cbn [outcome_of trace_of fst snd].
  pose proof (has_Quit_In clicks) as Hq.
  assert (Hcases :
    match ListenAndServe_err env ":8000" with
    | None => exit_status (scheduled env clicks)
              = if has_Quit clicks then Some 0%Z else None
    | Some _ => exit_status (scheduled env clicks) = Some 1%Z
                \/ (exit_status (scheduled env clicks) = Some 0%Z
                    /\ has_Quit clicks = true)
    end).
  { destruct (ListenAndServe_err env ":8000") as [e|] eqn:He.
    - destruct (scheduled_port_taken env clicks e He) as [[H _]|H]; [left | right];
        exact H.
    - apply (scheduled_bound env clicks He). }
  split; [|split; [|split; [|split; [|split; [|split]]]]].
  - intros Hb. rewrite Hb in Hcases. rewrite Hcases.
    destruct (has_Quit clicks); reflexivity.
  - intros Hne. destruct (ListenAndServe_err env ":8000") as [e|] eqn:He; [|congruence].
    split.
    + destruct Hcases as [-> | [-> Hh]];
        [left; reflexivity | right; split; [reflexivity | apply Hq; exact Hh]].
    + intros Hs. rewrite (scheduled_server_first env clicks Hs).
      unfold server_events. rewrite He. reflexivity.
  - destruct (ListenAndServe_err env ":8000") as [e|].
    + destruct Hcases as [-> | [_ Hh]]; [discriminate | intros _; apply Hq; exact Hh].
    + rewrite Hcases. destruct (has_Quit clicks); [intros _; apply Hq; reflexivity
                                                  | discriminate].
  - destruct (ListenAndServe_err env ":8000") as [e|]; [discriminate|].
    rewrite Hcases. destruct (has_Quit clicks); discriminate.
  - destruct (ListenAndServe_err env ":8000") as [e|].
    + split; [|intros [H _]; discriminate H].
      destruct Hcases as [-> | [-> _]]; discriminate.
    + rewrite Hcases. destruct (has_Quit clicks) eqn:Hh.
      * split; [discriminate|]. intros [_ Hn]. destruct Hn. apply Hq. reflexivity.
      * split; [|reflexivity]. intros _. split; [reflexivity|].
        intros Hin. apply Hq in Hin. discriminate Hin.
  - clear Hcases. unfold start_events, scheduled. cbn [app List.filter is_Exit].
    rewrite until_Exit_exits, exit_status_until.
    destruct (exit_status _); reflexivity.
  - clear Hcases. intros code Hc. unfold scheduled in *.
    rewrite exit_status_until in Hc.
    destruct (exit_status _) as [c|] eqn:Hx; [|discriminate Hc].
    injection Hc as ->.
    rewrite last_app, (until_Exit_last _ _ Hx). reflexivity.
Qed.

(** X11. [startServer] never takes its fatal branch: [fs.Sub(distFiles,
    "dist")] cannot fail, so the function logs nothing, does not exit,
    registers the file server of the embedded tree at ["/"] and launches the
    server goroutine. *)
Theorem startServer_never_fails (env : Env) (g : Globals) :
  startServer env g
  = (Return tt,
     {| lanURL := lanURL g;
        DefaultServeMux := (DefaultServeMux g ++ [("/", http.FileServer (served_root env))])%list |},
     [Go go_serve]).
Proof. unfold startServer, served_root. rewrite distFS_eq. reflexivity. Qed.

(** ** The served tree *)

Lemma serveFile_document root u n r resp :
  http.serveFile root u n r = resp ->
  match resp with
  | http.Content data => exists x, root x = Ok (fs.File data)
  | http.DirList entries => exists x, root x = Ok (fs.Dir entries)
  | _ => True
  end.
Proof.
  unfold http.serveFile, http.toHTTPError. intros <-. cbv zeta.
  repeat match goal with
         | |- context [match root ?x with _ => _ end] =>
             destruct (root x) as [[?|?]|[]] eqn:?
         | |- context [if ?b then _ else _] => destruct b eqn:?
         end;
    cbv beta iota; try exact I; eauto.
Qed.

Lemma Join_dist_under name :
  fs.ValidPath name = true -> under_dist (path.Join "dist" name) = true.
Proof.
  unfold fs.ValidPath. intros H. apply andb_prop in H as [_ H].
  apply orb_prop in H as [H|H].
  - apply String.eqb_eq in H. subst name. reflexivity.
  - rewrite (Join_dist _ H). reflexivity.
Qed.

Lemma served_root_under_dist env n node :
  served_root env n = Ok node ->
  exists key, under_dist key = true /\ distFiles env !! key = Some node.
Proof.
  unfold served_root. rewrite distFS_eq. unfold http.FS.
  set (name := if String.eqb n "/" then "." else strings.TrimPrefix n "/").
  destruct (fs.ValidPath name) eqn:Hv; cbn [negb]; [|discriminate].
  unfold fs.embed_Open.
  destruct (fs.ValidPath (path.Join "dist" name)); [|discriminate].
  destruct (distFiles env !! path.Join "dist" name) as [x|] eqn:Hl; [|discriminate].
  intros [= <-]. exists (path.Join "dist" name). split; [|exact Hl].
  apply Join_dist_under. exact Hv.
Qed.

(** A document or a listing that the mux with the single pattern "/" sends
    is one the handler sends, for the path of the request. *)
Lemma mux_root_document (v : http.MuxVersion) (h : http.Handler) (r : http.Request) :
  (forall data, http.ServeMux_ServeHTTP v [("/", h)] r = http.Content data ->
     h (http.Path r) = http.Content data)
  /\ (forall entries, http.ServeMux_ServeHTTP v [("/", h)] r = http.DirList entries ->
     h (http.Path r) = http.DirList entries).
Proof.
  rewrite mux_root. unfold http.mux_redirect.
  destruct (String.eqb (http.Path r) "*"); [split; intros ? H; discriminate H|].
  destruct (negb _); [|split; intros ? H; exact H].
  destruct (http.redirect307 v); split; intros ? H; discriminate H.
Qed.

(** X12. Whatever the request path, a document the server sends is a file
    of the embedded tree at or below ["dist"], and a listing it sends is that
    of a directory there.  This holds for a path sent in its default encoding
    and for every other request, whatever its decoded path and whatever its
    encoded path. *)
Theorem GET_serves_only_dist (env : Env) (p : string) :
  (forall data, GET env p = Some (http.Content data) ->
     exists key, under_dist key = true /\ distFiles env !! key = Some (fs.File data))
  /\ (forall entries, GET env p = Some (http.DirList entries) ->
     exists key, under_dist key = true /\ distFiles env !! key = Some (fs.Dir entries))
  /\ (forall r data, GET_request env r = Some (http.Content data) ->
     exists key, under_dist key = true /\ distFiles env !! key = Some (fs.File data))
  /\ (forall r entries, GET_request env r = Some (http.DirList entries) ->
     exists key, under_dist key = true /\ distFiles env !! key = Some (fs.Dir entries)).
Proof.
  assert (Hr : forall r,
    (forall data, GET_request env r = Some (http.Content data) ->
       exists key, under_dist key = true /\ distFiles env !! key = Some (fs.File data))
    /\ (forall entries, GET_request env r = Some (http.DirList entries) ->
       exists key, under_dist key = true /\ distFiles env !! key = Some (fs.Dir entries))).
  { intros r. destruct (ListenAndServe_err env ":8000") as [e|] eqn:Hb.
    - rewrite (GET_request_not_bound env r e Hb). split; intros ? H; discriminate H.
    - rewrite (GET_request_bound env r Hb).
      destruct (mux_root_document (muxVersion env)
                  (http.FileServer (served_root env)) r) as [Hc Hd].
      unfold http.FileServer in Hc, Hd.
      split; intros x [= H];
        [apply Hc in H | apply Hd in H];
        apply serveFile_document in H as [y Hy];
        exact (served_root_under_dist _ _ _ Hy). }
  split; [apply (Hr (http.plain p))|].
  split; [apply (Hr (http.plain p))|].
  split; intros r; apply (Hr r).
Qed.

Lemma mapOpenError_parts_ext (stat stat' : fs.FS) e before parts :
  (forall n, stat n = stat' n) ->
  http.mapOpenError_parts stat e before parts
  = http.mapOpenError_parts stat' e before parts.
Proof.
  intros H. revert before. induction parts as [|p rest IH]; intros before; [reflexivity|].
  cbn [http.mapOpenError_parts]. rewrite H, !IH. reflexivity.
Qed.

Lemma serveFile_ext (root root' : http.FileSystem) u n r :
  (forall x, root x = root' x) ->
  http.serveFile root u n r = http.serveFile root' u n r.
Proof.
  intros H. unfold http.serveFile.
  rewrite (H n), (H (strings.TrimSuffix n "/" +:+ http.indexPage)). reflexivity.
Qed.

Lemma served_root_agree env env' :
  (forall key, under_dist key = true -> distFiles env !! key = distFiles env' !! key) ->
  forall n, served_root env n = served_root env' n.
Proof.
  intros H n. unfold served_root. rewrite !distFS_eq. unfold http.FS.
  set (name := if String.eqb n "/" then "." else strings.TrimPrefix n "/").
  assert (Hsub : forall m,
    (if negb (fs.ValidPath m) then Err fs.ErrInvalid
     else fs.embed_Open (distFiles env) (path.Join "dist" m))
    = (if negb (fs.ValidPath m) then Err fs.ErrInvalid
       else fs.embed_Open (distFiles env') (path.Join "dist" m))).
  { intros m. destruct (fs.ValidPath m) eqn:Hv; cbn [negb]; [|reflexivity].
    unfold fs.embed_Open. rewrite (H _ (Join_dist_under _ Hv)). reflexivity. }
  rewrite (Hsub name).
  destruct (if negb (fs.ValidPath name) then Err fs.ErrInvalid
            else fs.embed_Open (distFiles env') (path.Join "dist" name))
    as [file|err]; [reflexivity|].
  f_equal. unfold http.mapOpenError. destruct err; try reflexivity.
  apply mapOpenError_parts_ext. exact Hsub.
Qed.

(** X13. What is embedded outside ["dist"] has no influence on any answer of
    the server: two bundles that agree at and below ["dist"], served by the
    same net/http, are answered alike, for every request path and for every
    request. *)
Theorem GET_ignores_files_outside_dist (env env' : Env) (p : string) :
  (forall key, under_dist key = true -> distFiles env !! key = distFiles env' !! key) ->
  ListenAndServe_err env ":8000" = None ->
  ListenAndServe_err env' ":8000" = None ->
  muxVersion env = muxVersion env' ->
  GET env p = GET env' p
  /\ (forall r, GET_request env r = GET_request env' r).
Proof.
  intros H Hb Hb' Hv.
  assert (Hr : forall r, GET_request env r = GET_request env' r).
  { intros r.
    rewrite (GET_request_bound env r Hb), (GET_request_bound env' r Hb'), Hv, !mux_root.
    destruct (String.eqb (http.Path r) "*"); [reflexivity|].
    destruct (negb _); [reflexivity|]. f_equal.
    unfold http.FileServer. apply serveFile_ext. apply served_root_agree. exact H. }
  split; [apply (Hr (http.plain p)) | exact Hr].
Qed.

Lemma GET_ignores_files_outside_dist_witness :
  GET (machine "linux" loopback_and_lan dist_with_secret) "/secret.txt"
  = GET (machine "linux" loopback_and_lan dist_plain) "/secret.txt".
Proof.
  apply (GET_ignores_files_outside_dist
           (machine "linux" loopback_and_lan dist_with_secret)
           (machine "linux" loopback_and_lan dist_plain) "/secret.txt");
    [|reflexivity|reflexivity|reflexivity].
  intros key Hk. cbn [distFiles machine]. unfold dist_with_secret.
  apply lookup_insert_ne. intros <-. vm_compute in Hk. discriminate Hk.
Defined.

Lemma SplitSlash_slashless s : slashless (strings.SplitSlash s) = true.
Proof.
  induction s as [|a s IH]; [reflexivity|]. cbn [strings.SplitSlash].
  destruct (Ascii.eqb a "/") eqn:E; [exact IH|].
  pose proof (SplitSlash_nonempty s) as Hn.
  destruct (strings.SplitSlash s) as [|w ws]; [congruence|].
  cbn [strings.push_byte slashless forallb has_slash] in *. rewrite E. exact IH.
Qed.

Lemma Split_slashless e : has_slash e = false -> strings.SplitSlash e = [e].
Proof.
  induction e as [|a e IH]; [reflexivity|]. cbn [has_slash]. intros H.
  apply orb_false_elim in H as [Ha He]. cbn [strings.SplitSlash].
  rewrite Ha, (IH He). reflexivity.
Qed.

Lemma Split_app_slash s t :
  strings.SplitSlash (s +:+ String "/" t)
  = (strings.SplitSlash s ++ strings.SplitSlash t)%list.
Proof.
  induction s as [|a s IH]; [reflexivity|].
  change (String a s +:+ String "/" t) with (String a (s +:+ String "/" t)).
  cbn [strings.SplitSlash]. rewrite IH.
  destruct (Ascii.eqb a "/"); [reflexivity|].
  pose proof (SplitSlash_nonempty s) as Hn.
  destruct (strings.SplitSlash s); [congruence | reflexivity].
Qed.

Lemma Split_Join l :
  l <> [] -> slashless l = true -> strings.SplitSlash (strings.JoinSlash l) = l.
Proof.
  induction l as [|e l IH]; [congruence|]. intros _ H.
  cbn [slashless forallb] in H. apply andb_prop in H as [He Hl].
  apply negb_true_iff in He.
  destruct l as [|e' l]; [exact (Split_slashless _ He)|].
  change (strings.JoinSlash (e :: e' :: l))
    with (e +:+ String "/" (strings.JoinSlash (e' :: l))).
  rewrite Split_app_slash, (Split_slashless _ He), IH by (congruence || exact Hl).
  reflexivity.
Qed.

Lemma clean_elems_app rooted out l1 l2 :
  path.clean_elems rooted out (l1 ++ l2)
  = path.clean_elems rooted (path.clean_elems rooted out l1) l2.
Proof.
  revert out. induction l1 as [|e l1 IH]; intros out; [reflexivity|].
  cbn [app path.clean_elems].
  destruct (String.eqb e "" || String.eqb e "."); [apply IH|].
  destruct (String.eqb e ".."); [|apply IH].
  destruct out as [|top out']; [destruct rooted; apply IH|].
  destruct (negb rooted && String.eqb top ".."); apply IH.
Qed.

Lemma clean_elems_rooted_real out elems :
  forallb path.real_elem out = true -> slashless out = true ->
  slashless elems = true ->
  forallb path.real_elem (path.clean_elems true out elems) = true
  /\ slashless (path.clean_elems true out elems) = true.
Proof.
  revert out. induction elems as [|e elems IH]; intros out Hr Hs He; [split; assumption|].
  cbn [slashless forallb] in He. apply andb_prop in He as [He1 He].
  cbn [path.clean_elems].
  destruct (String.eqb e "") eqn:E1; cbn [orb]; [apply IH; assumption|].
  destruct (String.eqb e ".") eqn:E2; [apply IH; assumption|].
  destruct (String.eqb e "..") eqn:E3.
  - destruct out as [|top out']; [apply IH; assumption|].
    cbn [negb andb]. cbn [forallb slashless] in Hr, Hs.
    apply andb_prop in Hr as [_ Hr]. apply andb_prop in Hs as [_ Hs].
    apply IH; assumption.
  - apply IH; [|cbn [slashless forallb]; rewrite He1; exact Hs|exact He].
    cbn [forallb]. unfold path.real_elem at 1. rewrite E1, E2, E3. exact Hr.
Qed.

Lemma forallb_rev {A} (f : A -> bool) l : forallb f (rev l) = forallb f l.
Proof.
  induction l as [|x l IH]; [reflexivity|].
  cbn [rev forallb]. rewrite forallb_app, IH. cbn [forallb].
  rewrite andb_true_r. apply andb_comm.
Qed.

Lemma Clean_rooted_elems p :
  strings.HasPrefix p "/" = true ->
  exists out, path.Clean p = "/" +:+ strings.JoinSlash out
              /\ forallb path.real_elem out = true /\ slashless out = true.
Proof.
  intros H. unfold path.Clean. destruct p as [|a p]; [discriminate H|].
  change (String.eqb (String a p) "") with false. cbv iota zeta. rewrite H.
  eexists. split; [reflexivity|].
  destruct (clean_elems_rooted_real [] (strings.SplitSlash (String a p))
              eq_refl eq_refl (SplitSlash_slashless _)) as [Hr Hs].
  unfold slashless. rewrite !forallb_rev. split; assumption.
Qed.

Lemma Clean_idempotent_rooted p :
  strings.HasPrefix p "/" = true -> path.Clean (path.Clean p) = path.Clean p.
Proof.
  intros H. destruct (Clean_rooted_elems p H) as (out & -> & Hr & Hs).
  destruct out as [|e out]; [reflexivity|].
  apply Clean_rooted. unfold elems_ok.
  rewrite Split_Join by (congruence || exact Hs). exact Hr.
Qed.

Lemma Clean_trailing_slash s :
  elems_ok s = true -> path.Clean ("/" +:+ (s +:+ "/")) = "/" +:+ s.
Proof.
  intros H. change ("/" +:+ (s +:+ "/")) with (String "/" (s +:+ String "/" "")).
  unfold path.Clean.
  change (String.eqb (String "/" (s +:+ String "/" "")) "") with false.
  change (strings.HasPrefix (String "/" (s +:+ String "/" "")) "/") with true.
  change (strings.SplitSlash (String "/" (s +:+ String "/" "")))
    with ("" :: strings.SplitSlash (s +:+ String "/" "")).
  rewrite Split_app_slash.
  change (path.clean_elems true [] ("" :: (strings.SplitSlash s ++ strings.SplitSlash ""))%list)
    with (path.clean_elems true [] (strings.SplitSlash s ++ [""])%list).
  cbv beta iota zeta.
  rewrite clean_elems_app.
  rewrite (clean_elems_real true [] (strings.SplitSlash s)) by exact H.
  cbn [path.clean_elems String.eqb orb].
  rewrite app_nil_r, rev_involutive, Join_Split. reflexivity.
Qed.

Lemma ends_in_slash_rooted s :
  elems_ok s = true -> http.ends_in_slash ("/" +:+ s) = false.
Proof.
  intros He. unfold http.ends_in_slash. change ("/" +:+ s) with (String "/" s).
  cbn [strings.HasSuffix]. rewrite (elems_ok_no_trailing_slash _ He).
  pose proof (elems_ok_nonempty _ He). destruct s; [congruence | reflexivity].
Qed.

Lemma cleanPath_form p :
  http.cleanPath p = "/"
  \/ exists s, elems_ok s = true
       /\ (http.cleanPath p = "/" +:+ s \/ http.cleanPath p = "/" +:+ (s +:+ "/")).
Proof.
  unfold http.cleanPath.
  destruct (String.eqb p ""); [left; reflexivity|].
  set (q := if negb (strings.HasPrefix p "/") then "/" +:+ p else p).
  assert (Hq : strings.HasPrefix q "/" = true).
  { subst q. destruct (strings.HasPrefix p "/") eqn:E; [exact E | reflexivity]. }
  cbv zeta. destruct (Clean_rooted_elems q Hq) as (out & Hc & Hr & Hs). rewrite Hc.
  destruct out as [|e out].
  - left. change ("/" +:+ strings.JoinSlash []) with "/". rewrite String.eqb_refl.
    rewrite andb_false_r. reflexivity.
  - right. exists (strings.JoinSlash (e :: out)). split.
    + unfold elems_ok. rewrite Split_Join by (congruence || exact Hs). exact Hr.
    + destruct (_ && _); [right | left]; reflexivity.
Qed.

Lemma cleanPath_canonical s :
  elems_ok s = true ->
  http.cleanPath ("/" +:+ s) = "/" +:+ s
  /\ http.cleanPath ("/" +:+ (s +:+ "/")) = "/" +:+ (s +:+ "/").
Proof.
  intros He.
  assert (Hne : String.eqb ("/" +:+ s) "/" = false).
  { pose proof (elems_ok_nonempty _ He). destruct s; [congruence | reflexivity]. }
  split.
  - unfold http.cleanPath.
    change (String.eqb ("/" +:+ s) "") with false. cbv iota.
    change (strings.HasPrefix ("/" +:+ s) "/") with true. cbn [negb]. cbv iota zeta.
    rewrite (Clean_rooted _ He), (ends_in_slash_rooted _ He). reflexivity.
  - unfold http.cleanPath.
    change (String.eqb ("/" +:+ (s +:+ "/")) "") with false. cbv iota.
    change (strings.HasPrefix ("/" +:+ (s +:+ "/")) "/") with true. cbn [negb]. cbv iota zeta.
    rewrite (Clean_trailing_slash _ He), Hne.
    unfold http.ends_in_slash.
    change ("/" +:+ (s +:+ "/")) with (("/" +:+ s) +:+ "/").
    rewrite HasSuffix_app. reflexivity.
Qed.

Lemma cleanPath_idempotent p : http.cleanPath (http.cleanPath p) = http.cleanPath p.
Proof.
  destruct (cleanPath_form p) as [->|(s & He & [-> | ->])];
    [reflexivity | apply cleanPath_canonical | apply cleanPath_canonical]; exact He.
Qed.

(** X14. The mux answers a request whose path is not in canonical form (an
    empty, [.] or [..] element, no leading slash) with a redirect to the
    canonical form, of status 301 or 307 by the release of net/http, and never
    with a document; the canonical form is a fixed point of the cleaning.  A
    request whose path is in canonical form goes to the file server, with
    [r.URL.Path] as it came.  The path the mux looks at is [r.URL.Path] up to
    Go 1.21 and the encoded path from Go 1.22 on: there a request such as
    [GET /%2e%2e/a.txt], whose encoded path is in canonical form, is not
    redirected, and the file server, which cleans the decoded path
    [/../a.txt] itself, answers it with the document [a.txt]. *)
Theorem GET_noncanonical_path_is_redirected (env : Env) (r : http.Request) :
  ListenAndServe_err env ":8000" = None ->
  http.Path r <> "*" ->
  (http.cleanPath (http.mux_path (muxVersion env) r) <> http.mux_path (muxVersion env) r ->
   GET_request env r
   = Some (http.mux_redirect (muxVersion env)
             (http.cleanPath (http.mux_path (muxVersion env) r)))
   /\ (forall resp, GET_request env r = Some resp ->
         http.StatusCode resp = 301%Z \/ http.StatusCode resp = 307%Z))
  /\ (http.cleanPath (http.mux_path (muxVersion env) r) = http.mux_path (muxVersion env) r ->
      GET_request env r = Some (http.FileServer (served_root env) (http.Path r)))
  /\ http.cleanPath (http.cleanPath (http.mux_path (muxVersion env) r))
     = http.cleanPath (http.mux_path (muxVersion env) r).
Proof.
  intros Hb Hstar. rewrite (GET_request_bound env r Hb), mux_root.
  destruct (String.eqb_spec (http.Path r) "*") as [E|_]; [congruence|].
  split; [|split; [|apply cleanPath_idempotent]].
  - intros Hne.
    destruct (String.eqb_spec (http.cleanPath (http.mux_path (muxVersion env) r))
                (http.mux_path (muxVersion env) r)); [congruence|].
    cbn [negb]. split; [reflexivity|].
    intros resp [= <-]. unfold http.mux_redirect.
    destruct (http.redirect307 (muxVersion env)); [right | left]; reflexivity.
  - intros ->. rewrite String.eqb_refl. reflexivity.
Qed.

Lemma GET_noncanonical_path_is_redirected_witness :
  GET_request (machine "linux" loopback_and_lan dist_plain)
    {| http.Path := "/../a.txt"; http.EscapedPath := "/%2e%2e/a.txt" |}
  = Some (http.Content hi_html).
Proof.
  apply (GET_noncanonical_path_is_redirected
           (machine "linux" loopback_and_lan dist_plain)
           {| http.Path := "/../a.txt"; http.EscapedPath := "/%2e%2e/a.txt" |});
    [reflexivity | discriminate | reflexivity].
Defined.

Lemma append_cons a s v : String a s +:+ v = String a (s +:+ v).
Proof. reflexivity. Qed.

Lemma ValidString_app_len n u v :
  String.length u <= n ->
  utf8.ValidString u = true -> utf8.ValidString (u +:+ v) = utf8.ValidString v.
Proof.
  revert u. induction n as [|n IH]; intros u Hn H.
  { destruct u; [reflexivity | cbn in Hn; lia]. }
  destruct u as [|a s1]; [reflexivity|].
  rewrite append_cons. cbn [utf8.ValidString] in H |- *. cbn [String.length] in Hn.
  destruct (utf8.between 0 127 a); [apply IH; [lia | exact H]|].
  destruct s1 as [|b s2]; [discriminate H|].
  rewrite append_cons. cbn [String.length] in Hn.
  destruct (utf8.between 194 223 a).
  { apply andb_prop in H as [-> H]. cbn [andb]. apply IH; [lia | exact H]. }
  destruct s2 as [|c s3]; [discriminate H|].
  rewrite append_cons. cbn [String.length] in Hn.
  destruct (utf8.between 224 224 a).
  { apply andb_prop in H as [H1 H]. rewrite H1. cbn [andb]. apply IH; [lia | exact H]. }
  destruct (utf8.between 225 236 a).
  { apply andb_prop in H as [H1 H]. rewrite H1. cbn [andb]. apply IH; [lia | exact H]. }
  destruct (utf8.between 237 237 a).
  { apply andb_prop in H as [H1 H]. rewrite H1. cbn [andb]. apply IH; [lia | exact H]. }
  destruct (utf8.between 238 239 a).
  { apply andb_prop in H as [H1 H]. rewrite H1. cbn [andb]. apply IH; [lia | exact H]. }
  destruct s3 as [|d s4]; [discriminate H|].
  rewrite append_cons. cbn [String.length] in Hn.
  destruct (utf8.between 240 240 a).
  { apply andb_prop in H as [H1 H]. rewrite H1. cbn [andb]. apply IH; [lia | exact H]. }
  destruct (utf8.between 241 243 a).
  { apply andb_prop in H as [H1 H]. rewrite H1. cbn [andb]. apply IH; [lia | exact H]. }
  destruct (utf8.between 244 244 a); [|discriminate H].
  apply andb_prop in H as [H1 H]. rewrite H1. cbn [andb]. apply IH; [lia | exact H].
Qed.

Lemma ValidString_app u v :
  utf8.ValidString u = true -> utf8.ValidString (u +:+ v) = utf8.ValidString v.
Proof. apply (ValidString_app_len (String.length u)). lia. Qed.

Lemma ValidPath_index name :
  fs.ValidPath ("dist/" +:+ name) = true ->
  fs.ValidPath ("dist/" +:+ (name +:+ "/index.html")) = true.
Proof.
  intros Hv. pose proof (ValidPath_dist_elems _ Hv) as He.
  unfold fs.ValidPath in *. apply andb_prop in Hv as [Hu _].
  change ("dist/" +:+ (name +:+ "/index.html"))
    with (("dist/" +:+ name) +:+ String "/" "index.html").
  rewrite (ValidString_app _ _ Hu), Split_app_slash, forallb_app.
  change (utf8.ValidString (String "/" "index.html")) with true. cbn [andb].
  apply orb_true_intro. right.
  change (strings.SplitSlash ("dist/" +:+ name)) with ("dist" :: strings.SplitSlash name).
  cbn [forallb]. change (path.real_elem "dist") with true. cbn [andb].
  unfold elems_ok in He. rewrite He. reflexivity.
Qed.

Lemma HasSuffix_trans x y z :
  strings.HasSuffix x y = true -> strings.HasSuffix y z = true ->
  strings.HasSuffix x z = true.
Proof.
  induction x as [|a x IH]; cbn [strings.HasSuffix]; intros H1 H2.
  - apply orb_prop in H1 as [H1|H1]; [|discriminate H1].
    apply String.eqb_eq in H1. subst y. exact H2.
  - apply orb_prop in H1 as [H1|H1].
    + apply String.eqb_eq in H1. subst y. exact H2.
    + rewrite (IH H1 H2). apply orb_true_r.
Qed.

Lemma HasSuffix_slash_l s : strings.HasSuffix (s +:+ "/") "l" = false.
Proof.
  induction s as [|a s IH]; [reflexivity|].
  rewrite append_cons. cbn [strings.HasSuffix]. rewrite IH, orb_false_r.
  destruct s; cbn; [destruct (Ascii.eqb a "l"); reflexivity|].
  destruct (Ascii.eqb a "l"); reflexivity.
Qed.

Lemma slash_not_index s : strings.HasSuffix (s +:+ "/") http.indexPage = false.
Proof.
  destruct (strings.HasSuffix (s +:+ "/") http.indexPage) eqn:E; [|reflexivity].
  rewrite <- (HasSuffix_slash_l s). symmetry.
  apply (HasSuffix_trans _ _ _ E). reflexivity.
Qed.

Lemma mux_root_canonical_slash (v : http.MuxVersion) (h : http.Handler) name :
  elems_ok name = true ->
  http.ServeMux_ServeHTTP v [("/", h)] (http.plain ("/" +:+ (name +:+ "/")))
  = h ("/" +:+ (name +:+ "/")).
Proof.
  intros H. rewrite mux_root.
  assert (Hp : exists name', elems_ok name' = true
                 /\ http.mux_path v (http.plain ("/" +:+ (name +:+ "/")))
                    = "/" +:+ (name' +:+ "/")).
  { unfold http.mux_path, http.plain. cbn [http.Path http.EscapedPath].
    destruct (http.httpmuxgo121 v).
    - exists name. split; [exact H | reflexivity].
    - exists (url.escape name). split; [rewrite elems_ok_escape; exact H|].
      rewrite EscapedPath_rooted, escape_app. reflexivity. }
  destruct Hp as (name' & H' & ->).
  destruct (cleanPath_canonical _ H') as [_ ->].
  rewrite String.eqb_refl. reflexivity.
Qed.

(** X15. A directory of the embedded bundle, asked for with the final slash,
    is answered with its [index.html] when it has one and with a listing of
    its entries when it has none; asked for without the final slash it is
    answered with a redirect (301). *)
Theorem GET_directory (env : Env) (name : string) (entries : list string) :
  ListenAndServe_err env ":8000" = None ->
  fs.ValidPath ("dist/" +:+ name) = true ->
  distFiles env !! ("dist/" +:+ name) = Some (fs.Dir entries) ->
  GET env ("/" +:+ (name +:+ "/"))
  = Some match distFiles env !! ("dist/" +:+ (name +:+ "/index.html")) with
         | Some (fs.File data) => http.Content data
         | Some (fs.Dir entries') => http.DirList entries'
         | None => http.DirList entries
         end
  /\ GET env ("/" +:+ name)
     = Some (http.MovedPermanently
               (if strings.HasSuffix ("/" +:+ name) "/index.html" then "./"
                else path.Base ("/" +:+ name) +:+ "/")).
Proof.
  intros Hb Hv Hd. pose proof (ValidPath_dist_elems _ Hv) as He.
  split; cycle 1.
  { rewrite (GET_bound env _ Hb), (mux_root_canonical _ _ _ He).
    rewrite (FileServer_lookup env name Hv), Hd.
    destruct (strings.HasSuffix ("/" +:+ name) "/index.html"); reflexivity. }
  rewrite (GET_bound env _ Hb), (mux_root_canonical_slash _ _ _ He).
  unfold http.FileServer.
  change (strings.HasPrefix ("/" +:+ (name +:+ "/")) "/") with true. cbn [negb].
  rewrite (Clean_trailing_slash _ He). unfold http.serveFile.
  change ("/" +:+ (name +:+ "/")) with (("/" +:+ name) +:+ "/").
  rewrite slash_not_index, (served_root_lookup _ _ Hv), Hd.
  assert (Hs : http.ends_in_slash (("/" +:+ name) +:+ "/") = true)
    by apply HasSuffix_app.
  rewrite Hs. cbn [negb]. cbv beta iota zeta.
  assert (Hne : String.eqb (("/" +:+ name) +:+ "/") "" = false) by reflexivity.
  rewrite Hne. cbn [orb].
  assert (Ht : strings.TrimSuffix ("/" +:+ name) "/" = "/" +:+ name).
  { unfold strings.TrimSuffix.
    pose proof (ends_in_slash_rooted _ He) as Hn. unfold http.ends_in_slash in Hn.
    rewrite Hn. reflexivity. }
  rewrite Ht.
  change (("/" +:+ name) +:+ http.indexPage) with ("/" +:+ (name +:+ "/index.html")).
  rewrite (served_root_lookup _ _ (ValidPath_index _ Hv)).
  destruct (distFiles env !! ("dist/" +:+ (name +:+ "/index.html"))) as [[d|es]|];
    reflexivity.
Qed.

Lemma GET_directory_witness :
  GET (machine "linux" loopback_and_lan dist_assets) "/assets/"
  = Some (http.DirList ["app.js"]).
Proof.
  apply (GET_directory (machine "linux" loopback_and_lan dist_assets) "assets" ["app.js"]);
    vm_compute; reflexivity.
Defined.

(** ** The build that serves from disk *)

Lemma FromDisk_onReady_run env g :
  FromDisk.onReady env g
  = (Return tt, g,
     (match icon_file env with Some data => [Tray (SetIcon data)] | None => [] end
      ++ tail (ready_events env))%list).
Proof.
  unfold FromDisk.onReady, icon_file.
  destruct (disk env "tray_icon.png") as [[data|es]|e]; reflexivity.
Qed.

Lemma handler_events_same_globals env g g' a :
  lanURL g = lanURL g' -> handler_events env g a = handler_events env g' a.
Proof.
  intros H. destruct a; handler_cases env; rewrite ?H; reflexivity.
Qed.

Lemma menu_events_same_globals env g g' clicks :
  lanURL g = lanURL g' -> menu_events env g clicks = menu_events env g' clicks.
Proof.
  intros H. unfold menu_events. f_equal. apply map_ext. intros a.
  apply handler_events_same_globals. exact H.
Qed.

Lemma FromDisk_main_run env clicks :
  ((FromDisk.main env clicks ;; os_Exit 0) : M unit) zero_Globals
  = (if has_Quit clicks then Exited 0 else Blocked, disk_Globals env,
     (start_events env
        ++ match icon_file env with Some data => [Tray (SetIcon data)] | None => [] end
        ++ after_icon env clicks)%list).
Proof.
  unfold FromDisk.main, FromDisk.startServer, systray_Run.
  cbv [bind set_lanURL get_lanURL emit http_Handle zero_Globals lanURL DefaultServeMux].
  rewrite FromDisk_onReady_run, menu_loop_run.
  rewrite (menu_events_same_globals env _ (started_Globals env)) by reflexivity.
  unfold after_icon.
  destruct (icon_file env); destruct (has_Quit clicks);
    rewrite ?app_nil_r; reflexivity.
Qed.

Lemma FromDisk_process_run env clicks :
  FromDisk.process env clicks =
    let t := until_Exit
               (interleave (schedule env)
                  (match icon_file env with Some data => [Tray (SetIcon data)] | None => [] end
                   ++ after_icon env clicks)
                  (server_events env)) in
    (match exit_status t with Some code => Exited code | None => Blocked end,
     disk_Globals env, (start_events env ++ t)%list).
Proof.
  unfold FromDisk.process, run. rewrite FromDisk_main_run, serve_run.
  assert (Hs : trace_of
                 match ListenAndServe_err env ":8000" with
                 | Some e => (Exited 1, disk_Globals env, [Listen ":8000"; Log e; Exit 1])
                 | None => (Return tt, disk_Globals env, [Listen ":8000"])
                 end = server_events env).
  { unfold server_events. destruct (ListenAndServe_err env ":8000"); reflexivity. }
  cbv zeta. rewrite Hs. reflexivity.
Qed.

Lemma handler_events_not_SetIcon env g a :
  List.filter is_SetIcon (handler_events env g a) = [].
Proof. destruct a; handler_cases env; reflexivity. Qed.

Lemma after_icon_no_SetIcon env clicks :
  List.filter is_SetIcon (after_icon env clicks) = [].
Proof.
  unfold after_icon, ready_events. cbn [tail app List.filter is_SetIcon].
  rewrite List.filter_app.
  assert (Hm : List.filter is_SetIcon (menu_events env (started_Globals env) clicks) = []).
  { unfold menu_events. induction (handled clicks) as [|a l IH]; [reflexivity|].
    cbn [map concat]. rewrite List.filter_app, IH, handler_events_not_SetIcon.
    reflexivity. }
  rewrite Hm. destruct (has_Quit clicks); reflexivity.
Qed.

Lemma main_events_after_icon env clicks :
  main_events env clicks = Tray (SetIcon (iconData env)) :: after_icon env clicks.
Proof. reflexivity. Qed.

(** The two builds under the same scheduler, when both set an icon: the runs
    differ in the icon only. *)
Lemma interleave_head_swap (p : Event -> bool) sched x x' a s :
  p x = false -> p x' = false -> is_Exit x = false -> is_Exit x' = false ->
  List.filter p (until_Exit (interleave sched (x :: a) s))
  = List.filter p (until_Exit (interleave sched (x' :: a) s))
  /\ exit_status (interleave sched (x :: a) s)
     = exit_status (interleave sched (x' :: a) s).
Proof.
  intros Hx Hx' Ex Ex'.
  assert (Hcons : forall y t, is_Exit y = false -> until_Exit (y :: t) = y :: until_Exit t)
    by (intros y t Hy; destruct y; try reflexivity; discriminate Hy).
  assert (Hst : forall y t, is_Exit y = false -> exit_status (y :: t) = exit_status t)
    by (intros y t Hy; destruct y; try reflexivity; discriminate Hy).
  assert (Hhead : forall t,
            List.filter p (until_Exit (x :: t)) = List.filter p (until_Exit (x' :: t))
            /\ exit_status (x :: t) = exit_status (x' :: t)).
  { intros t. rewrite !Hcons, !Hst by assumption.
    cbn [List.filter]. rewrite Hx, Hx'. split; reflexivity. }
  assert (Hstep : forall y t t',
            List.filter p (until_Exit t) = List.filter p (until_Exit t')
            /\ exit_status t = exit_status t' ->
            List.filter p (until_Exit (y :: t)) = List.filter p (until_Exit (y :: t'))
            /\ exit_status (y :: t) = exit_status (y :: t')).
  { intros y t t' [H1 H2]. destruct (is_Exit y) eqn:Ey.
    - destruct y; try discriminate Ey. split; reflexivity.
    - rewrite !Hcons, !Hst by assumption. cbn [List.filter]. rewrite H1.
      split; [reflexivity | exact H2]. }
  revert s. induction sched as [|b sched IH]; intros s.
  - cbn [interleave]. induction s as [|y s IHs]; [apply Hhead|].
    cbn [app]. apply Hstep. exact IHs.
  - cbn [interleave]. destruct s as [|y s]; [apply Hhead|].
    destruct b; [apply Hstep, IH | apply Hhead].
Qed.

Lemma icon_prefix (sched : list bool) x a s :
  List.filter is_SetIcon a = [] -> List.filter is_SetIcon s = [] ->
  is_SetIcon x = true ->
  List.filter is_SetIcon (until_Exit (interleave sched (x :: a) s)) = [x]
  \/ List.filter is_SetIcon (until_Exit (interleave sched (x :: a) s)) = [].
Proof.
  intros Ha Hs Hx.
  destruct (filter_until_Exit_prefix is_SetIcon (interleave sched (x :: a) s))
    as [rest Hp].
  rewrite (filter_interleave_l is_SetIcon _ _ _ Hs) in Hp.
  cbn [List.filter] in Hp. rewrite Hx, Ha in Hp.
  destruct (List.filter is_SetIcon (until_Exit _)) as [|y [|z l]];
    [right; reflexivity | left; injection Hp as <- _; reflexivity | discriminate Hp].
Qed.

(** X16. The build that serves from disk and the embedded build run alike on
    the same machine, for the same clicks and under the same scheduler (with
    one step more for the embedded build when the disk build cannot read its
    icon): the same outcome, the same [lanURL], and the same events apart from
    the call of [SetIcon].  The disk build sets the icon only when
    [tray_icon.png] can be read, and then at most once; with the listener
    bound it does set it.  When the file cannot be read the tray comes up
    without an icon, and nothing is logged. *)
Theorem builds_differ_in_the_icon_only (env : Env) (clicks : list MenuAction) :
  let embedded := process (with_schedule (icon_schedule env) env) clicks in
  outcome_of (FromDisk.process env clicks) = outcome_of embedded
  /\ lanURL (globals_of (FromDisk.process env clicks)) = lanURL (globals_of embedded)
  /\ List.filter not_SetIcon (trace_of (FromDisk.process env clicks))
     = List.filter not_SetIcon (trace_of embedded)
  /\ (icon_file env = None ->
      List.filter is_SetIcon (trace_of (FromDisk.process env clicks)) = [])
  /\ (forall data, icon_file env = Some data ->
      (List.filter is_SetIcon (trace_of (FromDisk.process env clicks))
         = [Tray (SetIcon data)]
       \/ List.filter is_SetIcon (trace_of (FromDisk.process env clicks)) = [])
      /\ (ListenAndServe_err env ":8000" = None ->
          List.filter is_SetIcon (trace_of (FromDisk.process env clicks))
          = [Tray (SetIcon data)])).
Proof.
  intros embedded. subst embedded.
  rewrite FromDisk_process_run, process_run.
  cbv zeta. cbn [outcome_of globals_of trace_of fst snd].
  unfold scheduled.
  change (main_events (with_schedule (icon_schedule env) env) clicks)
    with (Tray (SetIcon (iconData env)) :: after_icon env clicks).
  change (server_events (with_schedule (icon_schedule env) env))
    with (server_events env).
  change (schedule (with_schedule (icon_schedule env) env)) with (icon_schedule env).
  change (start_events (with_schedule (icon_schedule env) env)) with (start_events env).
  rewrite !exit_status_until, !List.filter_app.
  pose proof (after_icon_no_SetIcon env clicks) as Ha.
  assert (Hs : List.filter is_SetIcon (server_events env) = [])
    by (unfold server_events; destruct (ListenAndServe_err env ":8000"); reflexivity).
  assert (Hst : List.filter is_SetIcon (start_events env) = []) by reflexivity.
  rewrite Hst. cbn [app].
  unfold icon_schedule. destruct (icon_file env) as [data|] eqn:Hi; cbn [app].
  - destruct (interleave_head_swap not_SetIcon (schedule env)
                (Tray (SetIcon data)) (Tray (SetIcon (iconData env)))
                (after_icon env clicks) (server_events env)
                eq_refl eq_refl eq_refl eq_refl) as [Hf Hx].
    rewrite Hf, Hx.
    split; [reflexivity|]. split; [reflexivity|]. split; [reflexivity|].
    split; [discriminate|]. intros d [= <-]. split.
    + apply icon_prefix; [exact Ha | exact Hs | reflexivity].
    + intros Hb.
      assert (Hl : server_events env = [Listen ":8000"])
        by (unfold server_events; rewrite Hb; reflexivity).
      rewrite Hl.
      rewrite <- (filter_filter_sub is_SetIcon not_Listen)
        by (intros e He; destruct e; try discriminate He; reflexivity).
      rewrite filter_until_Exit by reflexivity.
      rewrite (filter_interleave_l not_Listen) by reflexivity.
      assert (Hn : List.filter is_Listen (Tray (SetIcon data) :: after_icon env clicks) = [])
        by exact (main_events_no_Listen env clicks).
      assert (Hu : until_Exit (after_icon env clicks) = after_icon env clicks)
        by exact (f_equal tail (until_Exit_main_events env clicks)).
      unfold not_Listen. rewrite (filter_negb_all _ _ Hn).
      change (until_Exit (Tray (SetIcon data) :: after_icon env clicks))
        with (Tray (SetIcon data) :: until_Exit (after_icon env clicks)).
      rewrite Hu.
      change (List.filter is_SetIcon (Tray (SetIcon data) :: after_icon env clicks))
        with (Tray (SetIcon data) :: List.filter is_SetIcon (after_icon env clicks)).
      rewrite Ha. reflexivity.
  - assert (Hne : exists y s', server_events env = y :: s')
      by (unfold server_events; eauto).
    destruct Hne as (y & s' & Hy). rewrite Hy. cbn [interleave]. rewrite <- Hy.
    cbn [until_Exit exit_status List.filter not_SetIcon is_SetIcon negb].
    split; [reflexivity|]. split; [reflexivity|]. split; [reflexivity|].
    split; [|discriminate]. intros _.
    destruct (filter_until_Exit_prefix is_SetIcon
                (interleave (schedule env) (after_icon env clicks) (server_events env)))
      as [rest Hp].
    rewrite (filter_interleave_l is_SetIcon _ _ _ Hs), Ha in Hp.
    symmetry in Hp. apply app_eq_nil in Hp as [Hp _]. exact Hp.
Qed.


